(** * Table: a searchable, sortable, paginated table widget

    Shallow embedding of the three source files of the repository

    - [table-old.js]  the closure based widget [tablePage];
    - [table.js]      the class [DataTable];
    - the documented revision of the class [DataTable] (third source file),

    followed by the properties of the view-state pipeline
    (filter, sort, paginate, pagination window).

    Modelling conventions.
    - JavaScript numbers that the widget computes with (page numbers, page
      sizes, indices, lengths) and the numbers in the records are integers
      of magnitude below 2^53 and are modelled by [Z]; [String] of such a
      number is its decimal numeral. A page size of [0], for which the
      number of pages is [Infinity], is outside the model: the properties
      that depend on the number of pages exclude it.
    - A string is a sequence of UTF-16 code units below 256 (the Latin-1
      range), one to a character of a Rocq [string]; [toLowerCase] and
      [trim] are the JavaScript methods on such strings.
    - A record (a row of the table) is a JavaScript object used as a map from
      column keys to values: a [gmap string value]; reading a missing key
      yields [VUndefined].
    - [Array.prototype.sort] is a stable sort whose result the language
      fixes for a consistent comparison callback only. [JS.sort], a stable
      insertion sort, computes that result; for a callback that is not
      consistent on the array it is one of the orders an engine may
      return. *)

From Stdlib Require Import ZArith String Ascii List Lia Bool DecimalString.
From Stdlib Require OrderedTypeEx.
From stdpp Require Import base gmap strings list sorting.

Local Open Scope string_scope.
Local Open Scope Z_scope.

(** ** The JavaScript runtime: strings *)

Module JS.

(** The upper-case letters below 256: [A] to [Z], and U+00C0 to U+00DE
    without the multiplication sign U+00D7. *)
Definition isUpper (c : ascii) : bool :=
  let n := nat_of_ascii c in
  ((65 <=? n)%nat && (n <=? 90)%nat)
  || ((192 <=? n)%nat && (n <=? 222)%nat && negb (n =? 215)%nat).

Definition toLowerCaseChar (c : ascii) : ascii :=
  if isUpper c then ascii_of_nat (nat_of_ascii c + 32) else c.

(** [s.toLowerCase()] *)
Fixpoint toLowerCase (s : string) : string :=
  match s with
  | EmptyString => EmptyString
  | String c s' => String (toLowerCaseChar c) (toLowerCase s')
  end.

(** White space and line terminators below 256, which [trim] removes:
    TAB, LF, VT, FF, CR, SPACE and the no-break space U+00A0. *)
Definition isWhiteSpace (c : ascii) : bool :=
  let n := nat_of_ascii c in
  ((9 <=? n)%nat && (n <=? 13)%nat) || (n =? 32)%nat || (n =? 160)%nat.

Fixpoint trimStart (s : string) : string :=
  match s with
  | EmptyString => EmptyString
  | String c s' => if isWhiteSpace c then trimStart s' else s
  end.

Fixpoint trimEnd (s : string) : string :=
  match s with
  | EmptyString => EmptyString
  | String c s' =>
      match trimEnd s' with
      | EmptyString => if isWhiteSpace c then EmptyString else String c EmptyString
      | t => String c t
      end
  end.

(** [s.trim()] *)
Definition trim (s : string) : string := trimEnd (trimStart s).

(** [s.startsWith(t)] *)
Fixpoint startsWith (s t : string) : bool :=
  match t, s with
  | EmptyString, _ => true
  | String _ _, EmptyString => false
  | String b t', String a s' => if Ascii.eqb a b then startsWith s' t' else false
  end.

(** [s.includes(t)] *)
Fixpoint includes (s t : string) : bool :=
  startsWith s t ||
  match s with
  | EmptyString => false
  | String _ s' => includes s' t
  end.

Fixpoint indexOfFrom (s t : string) (i : Z) : Z :=
  if startsWith s t then i
  else match s with
       | EmptyString => -1
       | String _ s' => indexOfFrom s' t (i + 1)
       end.

(** [s.indexOf(t)]: the first position of [t] in [s], [-1] when there is
    none. *)
Definition indexOf (s t : string) : Z := indexOfFrom s t 0.

(** Truthiness of a string: every string but the empty one. *)
Definition truthy (s : string) : bool :=
  match s with EmptyString => false | _ => true end.

(** ** The JavaScript runtime: values *)

Inductive value : Type :=
| VUndefined
| VNumber (n : Z)
| VString (s : string).

(** [String(v)] *)
Definition toString (v : value) : string :=
  match v with
  | VUndefined => "undefined"
  | VNumber n => NilZero.string_of_int (Z.to_int n)
  | VString s => s
  end.

(** A record is an object used as a map from column keys to values. *)
Abbreviation record := (gmap string value).

(** [entry[key]] *)
Definition get (entry : record) (key : string) : value :=
  default VUndefined (entry !! key).

Section Relational.

(** [StringToNumber] of the runtime: the numeric value of a string, [None]
    for [NaN]. *)
Variable stringToNumber : string -> option Z.

(** [ToNumber(v)], [None] for [NaN]. *)
Definition toNumber (v : value) : option Z :=
  match v with
  | VUndefined => None
  | VNumber n => Some n
  | VString s => stringToNumber s
  end.

(** [a > b]: two strings are compared as strings, everything else as
    numbers, and a comparison with [NaN] is false. *)
Definition gt (a b : value) : bool :=
  match a, b with
  | VString s, VString t =>
      match String.compare s t with Gt => true | _ => false end
  | _, _ =>
      match toNumber a, toNumber b with
      | Some x, Some y => y <? x
      | _, _ => false
      end
  end.

(** [a < b] *)
Definition lt (a b : value) : bool := gt b a.

End Relational.

(** [Number(b)] of a boolean, as used by [(a > b) - (a < b)]. *)
Definition ofBool (b : bool) : Z := if b then 1 else 0.

(** ** The JavaScript runtime: arrays *)

Section Arrays.
Context {A : Type}.

(** The relative index of [slice]: a negative index counts from the end. *)
Definition relativeIndex (len i : Z) : Z :=
  if i <? 0 then Z.max (len + i) 0 else Z.min i len.

(** [l.slice(start, end)] *)
Definition slice (l : list A) (start end_ : Z) : list A :=
  let len := Z.of_nat (length l) in
  let k := relativeIndex len start in
  let final := relativeIndex len end_ in
  take (Z.to_nat (final - k)) (drop (Z.to_nat k) l).

(** Insertion of [x] in front of the first element that does not have to
    come before it. *)
Fixpoint insert_sorted (cmp : A -> A -> Z) (x : A) (l : list A) : list A :=
  match l with
  | [] => [x]
  | y :: l' => if cmp x y <=? 0 then x :: l else y :: insert_sorted cmp x l'
  end.

(** [l.sort(cmp)]: a stable sort; [cmp a b > 0] asks for [a] after [b]. *)
Fixpoint sort (cmp : A -> A -> Z) (l : list A) : list A :=
  match l with
  | [] => []
  | x :: l' => insert_sorted cmp x (sort cmp l')
  end.

End Arrays.

(** [Math.ceil(a / b)] for integers [a] and [b <> 0]. *)
Definition ceilDiv (a b : Z) : Z := - ((- a) / b).

End JS.

(** A runtime fixes the one operation of the language that the widget
    relies on without defining it: the conversion of strings to numbers
    used when a string is compared with a number. *)
Class Runtime := stringToNumber : string -> option Z.

(** A runtime that reads unsigned decimal literals (and the empty string
    as [0]) and answers [NaN] for every other string. *)
Fixpoint decimalDigits (s : string) (acc : Z) : option Z :=
  match s with
  | EmptyString => Some acc
  | String c s' =>
      let n := nat_of_ascii c in
      if (48 <=? n)%nat && (n <=? 57)%nat
      then decimalDigits s' (10 * acc + (Z.of_nat n - 48))
      else None
  end.

#[export] Instance decimalRuntime : Runtime := fun s => decimalDigits s 0.

(** ** What the three source files share *)

(** A column of the table: [key], [label] and [ignoreFiltering] (a missing
    [ignoreFiltering] is falsy). *)
Record Column := {
  key : string;
  label : string;
  ignoreFiltering : bool;
}.

(** An entry of the pagination window: a page number or the ellipse
    ['...']. *)
Inductive token : Type :=
| Page (n : Z)
| Ellipse.

(** [range(low, high)]:
    [Array.from({ length: high - low }, (_, i) => i + low)];
    a negative length yields the empty array. *)
Definition range (low high : Z) : list Z :=
  (fun i : nat => Z.of_nat i + low) <$> seq 0 (Z.to_nat (high - low)).

Definition paginationRange : Z := 2.

(** The array [items] of [createPagination] ([table-old.js]) and of
    [renderPagination] (both revisions of the class), which is built under
    the test [pages > 1]. *)
Definition paginationItems (currentPage pages : Z) : list token :=
  if 1 <? pages then
    let surroundStart := Z.max 1 (currentPage - paginationRange) in
    let surroundEnd := Z.min pages (currentPage + paginationRange) in
    (if 2 <? surroundStart then [Page 1; Ellipse]
     else if 1 <? surroundStart then [Page 1] else [])
    ++ (Page <$> range surroundStart (surroundEnd + 1))
    ++ (if surroundEnd <? pages - 1 then [Ellipse; Page pages]
        else if surroundEnd <? pages then [Page pages] else [])
  else [].

(** [paginate(data, currentPage, pageSize)] of [table-old.js]; the method
    [paginate] of the class computes the same slice from its fields. *)
Definition paginate {A : Type} (data : list A) (currentPage pageSize : Z) : list A :=
  let startIndex := pageSize * (currentPage - 1) in
  JS.slice data startIndex (startIndex + pageSize).

(** [Math.ceil(filtered.length / pageSize)] *)
Definition pageCount {A : Type} (filtered : list A) (pageSize : Z) : Z :=
  JS.ceilDiv (Z.of_nat (length filtered)) pageSize.

(** The DOM element a widget renders into. *)
Inductive Element : Type := Elem (id : nat).

(** What a constructor throws. *)
Inductive Exception : Type :=
| TypeError
| Error (message : string).

(** ** [table-old.js]: the closure based widget *)

Module TableOld.

(** [sortColumn]: a key and an order, [1] ascending and [-1] descending. *)
Record SortColumn := {
  sc_key : string;
  sc_order : Z;
}.

(** The argument of [tablePage]; [None] is a property that is not given.
    [changeHandlers], a callback run after a table is drawn, has no effect
    on the widget and is left out. *)
Record Options := {
  o_container : option Element;
  o_data : option (list JS.record);
  o_columns : option (list Column);
  o_pageSize : option Z;
  o_showSearch : option bool;
  o_sortColumn : option SortColumn;
  o_hasRefresh : option bool;
}.

(** The caption and the page controls under the table. *)
Record Pagination := {
  startItemIndex : Z;
  endItemIndex : Z;
  totalItems : Z;
  items : list token;
}.

(** The content of the element [.table-container]. *)
Inductive TableContainer : Type :=
| Blank
| NoRecordsCard
| Table (rows : list JS.record) (pagination : Pagination).

(** The content of the container: the card alone, or the root with the
    search box (when shown) and the table container. *)
Inductive View : Type :=
| CardOnly
| Root (search : bool) (tableContainer : TableContainer).

(** The variables captured by the closures of [tablePage]. [aliased] records
    that [filtered] and [data] are one and the same array. *)
Record State := {
  container : Element;
  data : list JS.record;
  columns : list Column;
  pageSize : Z;
  showSearch : bool;
  sortColumn : SortColumn;
  filtered : list JS.record;
  aliased : bool;
  currentPage : Z;
  view : View;
}.

Section Widget.
Context `{!Runtime}.

(** The callback of [data.filter] in [filterByTerm]. *)
Fixpoint entryMatches (columns : list Column) (searchTerm : string)
    (entry : JS.record) : bool :=
  match columns with
  | [] => false
  | column :: rest =>
      if negb (ignoreFiltering column) then
        let field := JS.toString (JS.get entry (key column)) in
        if JS.truthy field then
          if JS.includes (JS.toLowerCase field) searchTerm then true
          else entryMatches rest searchTerm entry
        else entryMatches rest searchTerm entry
      else entryMatches rest searchTerm entry
  end.

(** The comparison callback of [filtered.sort] in [orderBy]. *)
Definition compare (sortColumn : SortColumn) (a b : JS.record) : Z :=
  if JS.gt stringToNumber (JS.get a (sc_key sortColumn)) (JS.get b (sc_key sortColumn))
  then 1 * sc_order sortColumn
  else if JS.lt stringToNumber (JS.get a (sc_key sortColumn)) (JS.get b (sc_key sortColumn))
  then -1 * sc_order sortColumn
  else 0.

(** [createPagination]: the caption and the page controls. *)
Definition createPagination (s : State) (paginated : list JS.record) : Pagination :=
  let pages := pageCount (filtered s) (pageSize s) in
  let startItemIndex := (currentPage s - 1) * pageSize s + 1 in
  let endItemIndex := startItemIndex - 1 + Z.of_nat (length paginated) in
  {| startItemIndex := startItemIndex;
     endItemIndex := endItemIndex;
     totalItems := Z.of_nat (length (filtered s));
     items := paginationItems (currentPage s) pages |}.

Definition setTableContainer (v : View) (tc : TableContainer) : View :=
  match v with
  | CardOnly => CardOnly
  | Root search _ => Root search tc
  end.

Definition setView (s : State) (v : View) : State :=
  {| container := container s; data := data s; columns := columns s;
     pageSize := pageSize s; showSearch := showSearch s;
     sortColumn := sortColumn s; filtered := filtered s;
     aliased := aliased s; currentPage := currentPage s; view := v |}.

Definition setCurrentPage (s : State) (p : Z) : State :=
  {| container := container s; data := data s; columns := columns s;
     pageSize := pageSize s; showSearch := showSearch s;
     sortColumn := sortColumn s; filtered := filtered s;
     aliased := aliased s; currentPage := p; view := view s |}.

(** [filtered = l], a fresh array ([alias = false]) or [data] itself. *)
Definition setFiltered (s : State) (l : list JS.record) (alias : bool) : State :=
  {| container := container s; data := data s; columns := columns s;
     pageSize := pageSize s; showSearch := showSearch s;
     sortColumn := sortColumn s; filtered := l;
     aliased := alias; currentPage := currentPage s; view := view s |}.

Definition setData (s : State) (l : list JS.record) : State :=
  {| container := container s; data := l; columns := columns s;
     pageSize := pageSize s; showSearch := showSearch s;
     sortColumn := sortColumn s; filtered := filtered s;
     aliased := aliased s; currentPage := currentPage s; view := view s |}.

Definition setSortColumn (s : State) (c : SortColumn) : State :=
  {| container := container s; data := data s; columns := columns s;
     pageSize := pageSize s; showSearch := showSearch s;
     sortColumn := c; filtered := filtered s;
     aliased := aliased s; currentPage := currentPage s; view := view s |}.

(** [render()] *)
Definition render (s : State) : State :=
  let paginated := paginate (filtered s) (currentPage s) (pageSize s) in
  if 0 <? Z.of_nat (length (filtered s)) then
    setView s (setTableContainer (view s)
                 (Table paginated (createPagination s paginated)))
  else
    setView s (setTableContainer (view s) NoRecordsCard).

(** [filtered.sort(...)]: sorts the array in place, hence [data] too when
    the two are one array. *)
Definition sortFiltered (s : State) : State :=
  let sorted := JS.sort (compare (sortColumn s)) (filtered s) in
  let s := setFiltered s sorted (aliased s) in
  if aliased s then setData s sorted else s.

(** [orderBy(key, retainOrder)] *)
Definition orderBy (key : string) (retainOrder : bool) (s : State) : State :=
  let order :=
    if String.eqb (sc_key (sortColumn s)) key then
      if retainOrder then sc_order (sortColumn s)
      else sc_order (sortColumn s) * -1
    else 1 in
  let s := setSortColumn s {| sc_key := key; sc_order := order |} in
  let s := sortFiltered s in
  let s := setCurrentPage s 1 in
  render s.

(** [filterByTerm(searchTerm)] *)
Definition filterByTerm (searchTerm : string) (s : State) : State :=
  let s :=
    if JS.truthy searchTerm then
      let s := setCurrentPage s 1 in
      setFiltered s (List.filter (entryMatches (columns s) searchTerm) (data s)) false
    else setFiltered s (data s) true in
  orderBy (sc_key (sortColumn s)) true s.

(** [columns.findIndex((col) => col.key === sortColumn.key)], [None] for
    [-1]. *)
Definition findColumn (columns : list Column) (k : string) : option Column :=
  List.find (fun col => String.eqb (key col) k) columns.

(** [init()]; [searchValue] is the text of the input that
    [document.querySelector(".search")] finds. *)
Definition init (searchValue : string) (s : State) : State :=
  let s := setFiltered s (data s) false in
  if showSearch s && JS.truthy searchValue then filterByTerm searchValue s
  else
    match findColumn (columns s) (sc_key (sortColumn s)) with
    | None => render s
    | Some column =>
        if ignoreFiltering column then render s
        else orderBy (sc_key (sortColumn s)) true s
    end.

(** The [keyup] listener of the search input. *)
Definition keyup (value : string) (s : State) : State :=
  let searchTerm := JS.toLowerCase (JS.trim value) in
  filterByTerm searchTerm s.

(** The [click] listener of a header cell: it exists for the columns that
    carry [data-key], those without [ignoreFiltering]. *)
Definition clickHeader (column : Column) (s : State) : State :=
  if ignoreFiltering column then s else orderBy (key column) false s.

(** The [click] listener of a page link. *)
Definition clickPage (page : Z) (s : State) : State :=
  render (setCurrentPage s page).

(** [update(updated)], the function that [tablePage] returns. *)
Definition update (searchValue : string) (updated : list JS.record) (s : State) : State :=
  init searchValue (setData s updated).

(** What a call of [tablePage] leaves behind: the content of the container
    and the returned value, [None] for [undefined] and otherwise the state
    that the returned [update] closes over. *)
Record Result := {
  shown : View;
  returned : option State;
}.

(** [tablePage({...})]; [search] is what [document.querySelector(".search")]
    finds once the root is written: the text of an input, or [None] for
    [null] when the document has no such element (the container is not
    in the document and no other search box is). The listener of a search
    box that is not found cannot be added: a [TypeError]. *)
Definition tablePage (search : option string) (o : Options) : Exception + Result :=
  let data := default [] (o_data o) in
  let columns := default [] (o_columns o) in
  let pageSize := default 20 (o_pageSize o) in
  let showSearch := default true (o_showSearch o) in
  match
    match o_sortColumn o with
    | Some c => Some c
    | None =>
        match columns with
        | [] => None
        | column :: _ => Some {| sc_key := key column; sc_order := 1 |}
        end
    end
  with
  | None => inl TypeError
  | Some sortColumn =>
      let hasRefresh := default false (o_hasRefresh o) in
      match o_container o with
      | None => inl (Error "Element not found.")
      | Some container =>
          if (Z.of_nat (length data) =? 0) && negb hasRefresh then
            inr {| shown := CardOnly; returned := None |}
          else
            let s :=
              {| container := container; data := data; columns := columns;
                 pageSize := pageSize; showSearch := showSearch;
                 sortColumn := sortColumn; filtered := [];
                 aliased := false; currentPage := 1;
                 view := Root showSearch Blank |} in
            match search with
            | None =>
                if showSearch then inl TypeError
                else
                  let s := init EmptyString s in
                  inr {| shown := view s; returned := Some s |}
            | Some searchValue =>
                let s := init searchValue s in
                inr {| shown := view s; returned := Some s |}
            end
      end
  end.

End Widget.

End TableOld.

(** ** The class [DataTable]: what its two revisions share *)

Module DataTable.

(** [sortColumn]: a key and an order, ["asc"] or anything else for
    descending. *)
Record SortColumn := {
  sc_key : string;
  sc_order : string;
}.

(** The argument of the constructor; [None] is a property that is not
    given. [changeHandlers] has no effect on the widget and is left out. *)
Record Options := {
  o_element : option Element;
  o_data : option (list JS.record);
  o_columns : option (list Column);
  o_showSearch : option bool;
  o_pageSize : option Z;
  o_sortColumn : option SortColumn;
}.

(** The caption and the page buttons; the buttons are there when there is
    more than one page, one for every page. *)
Record Pagination := {
  startItemIndex : Z;
  endItemIndex : Z;
  totalItems : Z;
  pageButtons : list Z;
}.

(** The content of the element [.table-container]. *)
Inductive TableContainer : Type :=
| Blank
| NoEntries
| Table (rows : list JS.record).

(** The content of the element: the search box (when shown), the table
    container and the pagination container. *)
Record View := {
  search : bool;
  tableContainer : TableContainer;
  paginationContainer : option Pagination;
}.

(** The fields of an instance. *)
Record State := {
  element : Element;
  data : list JS.record;
  filtered : list JS.record;
  paginated : list JS.record;
  columns : list Column;
  currentPage : Z;
  pageSize : Z;
  sortColumn : SortColumn;
  showSearch : bool;
  view : View;
}.

Definition setData (s : State) (l : list JS.record) : State :=
  {| element := element s; data := l; filtered := filtered s;
     paginated := paginated s; columns := columns s;
     currentPage := currentPage s; pageSize := pageSize s;
     sortColumn := sortColumn s; showSearch := showSearch s; view := view s |}.

Definition setFiltered (s : State) (l : list JS.record) : State :=
  {| element := element s; data := data s; filtered := l;
     paginated := paginated s; columns := columns s;
     currentPage := currentPage s; pageSize := pageSize s;
     sortColumn := sortColumn s; showSearch := showSearch s; view := view s |}.

Definition setPaginated (s : State) (l : list JS.record) : State :=
  {| element := element s; data := data s; filtered := filtered s;
     paginated := l; columns := columns s;
     currentPage := currentPage s; pageSize := pageSize s;
     sortColumn := sortColumn s; showSearch := showSearch s; view := view s |}.

Definition setCurrentPage (s : State) (p : Z) : State :=
  {| element := element s; data := data s; filtered := filtered s;
     paginated := paginated s; columns := columns s;
     currentPage := p; pageSize := pageSize s;
     sortColumn := sortColumn s; showSearch := showSearch s; view := view s |}.

Definition setSortColumn (s : State) (c : SortColumn) : State :=
  {| element := element s; data := data s; filtered := filtered s;
     paginated := paginated s; columns := columns s;
     currentPage := currentPage s; pageSize := pageSize s;
     sortColumn := c; showSearch := showSearch s; view := view s |}.

Definition setView (s : State) (v : View) : State :=
  {| element := element s; data := data s; filtered := filtered s;
     paginated := paginated s; columns := columns s;
     currentPage := currentPage s; pageSize := pageSize s;
     sortColumn := sortColumn s; showSearch := showSearch s; view := v |}.

Section Widget.
Context `{!Runtime}.

(** The callback of [this.data.filter] in the [input] listener. Falling off
    the loop returns [undefined], which [filter] reads as false. *)
Fixpoint entryMatches (columns : list Column) (searchTerm : string)
    (entry : JS.record) : bool :=
  match columns with
  | [] => false
  | column :: rest =>
      if negb (ignoreFiltering column) then
        let key := JS.toLowerCase (JS.toString (JS.get entry (key column))) in
        if negb (JS.indexOf key searchTerm =? -1) then true
        else entryMatches rest searchTerm entry
      else entryMatches rest searchTerm entry
  end.

(** The comparison callback of [sortData]. *)
Definition compare (key order : string) (a b : JS.record) : Z :=
  if String.eqb order "asc" then
    JS.ofBool (JS.gt stringToNumber (JS.get a key) (JS.get b key))
    - JS.ofBool (JS.lt stringToNumber (JS.get a key) (JS.get b key))
  else
    JS.ofBool (JS.gt stringToNumber (JS.get b key) (JS.get a key))
    - JS.ofBool (JS.lt stringToNumber (JS.get b key) (JS.get a key)).

(** [paginate()] *)
Definition paginate (s : State) : State :=
  let startIndex := pageSize s * (currentPage s - 1) in
  setPaginated s (JS.slice (filtered s) startIndex (startIndex + pageSize s)).

(** [renderTable()] *)
Definition renderTable (s : State) : State :=
  setView s {| search := search (view s);
               tableContainer := Table (paginated s);
               paginationContainer := paginationContainer (view s) |}.

(** [renderPagination()]. The array [items] that the method builds is
    [paginationItems (currentPage s) pages]; the buttons are drawn from the
    page count alone. *)
Definition renderPagination (s : State) : State :=
  let pages := pageCount (filtered s) (pageSize s) in
  let startItemIndex := (currentPage s - 1) * pageSize s + 1 in
  let endItemIndex := startItemIndex - 1 + Z.of_nat (length (paginated s)) in
  setView s {| search := search (view s);
               tableContainer := tableContainer (view s);
               paginationContainer :=
                 Some {| startItemIndex := startItemIndex;
                         endItemIndex := endItemIndex;
                         totalItems := Z.of_nat (length (filtered s));
                         pageButtons :=
                           if 1 <? pages then range 1 (pages + 1) else [] |} |}.

(** [renderNoEntries()] *)
Definition renderNoEntries (s : State) : State :=
  setView s {| search := search (view s);
               tableContainer := NoEntries;
               paginationContainer := paginationContainer (view s) |}.

(** [render()] *)
Definition render (s : State) : State :=
  if negb (Z.of_nat (length (filtered s)) =? 0) then
    renderPagination (renderTable (paginate s))
  else
    let s := renderNoEntries s in
    setView s {| search := search (view s);
                 tableContainer := tableContainer (view s);
                 paginationContainer := None |}.

(** [renderPage()] *)
Definition renderPage (s : State) : State :=
  setView s {| search := showSearch s;
               tableContainer := Blank;
               paginationContainer := None |}.

(** The [input] listener of the search box. *)
Definition input (value : string) (s : State) : State :=
  let searchTerm := JS.toLowerCase (JS.trim value) in
  let s := setCurrentPage s 1 in
  let s :=
    if JS.truthy searchTerm
    then setFiltered s (List.filter (entryMatches (columns s) searchTerm) (data s))
    else setFiltered s (data s) in
  render s.

(** [changePage(pageNum)], named [changeTablePage] in the revision. *)
Definition changePage (pageNum : Z) (s : State) : State :=
  render (setCurrentPage s pageNum).

(** The binding of the parameters of the constructor and its test of
    [element]: the fields of the new instance before [initData], or what
    is thrown. *)
Definition bind (defaultPageSize : Z) (o : Options) : Exception + State :=
  let data := default [] (o_data o) in
  let columns := default [] (o_columns o) in
  let showSearch := default (negb (Z.of_nat (length data) =? 0)) (o_showSearch o) in
  let pageSize := default defaultPageSize (o_pageSize o) in
  match
    match o_sortColumn o with
    | Some c => Some c
    | None =>
        match columns with
        | [] => None
        | column :: _ => Some {| sc_key := key column; sc_order := "asc" |}
        end
    end
  with
  | None => inl TypeError
  | Some sortColumn =>
      match o_element o with
      | None => inl (Error "Element not provided!")
      | Some element =>
          inr {| element := element; data := data; filtered := [];
                 paginated := []; columns := columns; currentPage := 1;
                 pageSize := pageSize; sortColumn := sortColumn;
                 showSearch := showSearch;
                 view := {| search := false; tableContainer := Blank;
                            paginationContainer := None |} |}
      end
  end.

(** The new order of a click on the header of [column]. *)
Definition clicked (column : Column) (c : SortColumn) : SortColumn :=
  if String.eqb (sc_key c) (key column) then
    {| sc_key := sc_key c;
       sc_order := if String.eqb (sc_order c) "asc" then "desc" else "asc" |}
  else
    {| sc_key := key column; sc_order := "asc" |}.

End Widget.

End DataTable.

(** ** [table.js] *)

Module Table.
Import DataTable.

Section Widget.
Context `{!Runtime}.

(** [sortData()] *)
Definition sortData (s : State) : State :=
  let key := sc_key (sortColumn s) in
  let order := sc_order (sortColumn s) in
  let s := setData s (JS.sort (compare key order) (data s)) in
  setFiltered s (data s).

(** [initData(tableData = this.data)] *)
Definition initData (tableData : list JS.record) (s : State) : State :=
  sortData (setData s tableData).

(** [new DataTable({...})] *)
Definition constructor (o : Options) : Exception + State :=
  match bind 3 o with
  | inl e => inl e
  | inr s => inr (render (renderPage (initData (data s) s)))
  end.

(** The [click] listener of the header cell of [column]; the cell has one
    when the column is without [ignoreFiltering]. *)
Definition click (column : Column) (s : State) : State :=
  if ignoreFiltering column then s
  else
    let s := setSortColumn s (clicked column (sortColumn s)) in
    render (sortData s).

End Widget.

End Table.

(** ** The documented revision of the class *)

Module Revision.
Import DataTable.

Section Widget.
Context `{!Runtime}.

(** [sortData()] *)
Definition sortData (s : State) : State :=
  let key := sc_key (sortColumn s) in
  let order := sc_order (sortColumn s) in
  setFiltered s (JS.sort (compare key order) (filtered s)).

(** [initData(tableData = this.data)] *)
Definition initData (tableData : list JS.record) (s : State) : State :=
  let s := sortData (setFiltered s tableData) in
  setData s (filtered s).

(** [new DataTable({...})] *)
Definition constructor (o : Options) : Exception + State :=
  match bind 20 o with
  | inl e => inl e
  | inr s => inr (render (renderPage (initData (data s) s)))
  end.

(** The [click] listener of the header cell of [column]; the call of
    [sortData] is commented out in the source. *)
Definition click (column : Column) (s : State) : State :=
  if ignoreFiltering column then s
  else
    let s := setSortColumn s (clicked column (sortColumn s)) in
    let s := setCurrentPage s 1 in
    render s.

End Widget.

End Revision.

(** ** The specification's pagination window *)

Module Spec.

(** The [n] consecutive integers that start at [a]. *)
Fixpoint upFrom (n : nat) (a : Z) : list Z :=
  match n with
  | O => []
  | S n' => a :: upFrom n' (a + 1)
  end.

(** Every integer of [[a, b]], both ends included, in ascending order. *)
Definition interval (a b : Z) : list Z := upFrom (Z.to_nat (b - a + 1)) a.

(** [window(currentPage, totalPages, radius)], steps 1 to 6 of the
    algorithm of the specification. *)
Definition window (currentPage totalPages radius : Z) : list token :=
  if totalPages <=? 1 then []
  else
    let surroundStart := Z.max 1 (currentPage - radius) in
    let surroundEnd := Z.min totalPages (currentPage + radius) in
    let leading :=
      if surroundStart >? 2 then [Page 1; Ellipse]
      else if surroundStart >? 1 then [Page 1]
      else [] in
    let middle := Page <$> interval surroundStart surroundEnd in
    let trailing :=
      if surroundEnd <? totalPages - 1 then [Ellipse; Page totalPages]
      else if surroundEnd <? totalPages then [Page totalPages]
      else [] in
    leading ++ middle ++ trailing.

(** [t] is a substring of [s]. *)
Definition contains (s t : string) : Prop :=
  exists pre post : string, s = (pre ++ t ++ post)%string.

(** A record matches a search term when some column without
    [ignoreFiltering] has a value whose string, case-folded, contains the
    case-folded term. *)
Definition matches (columns : list Column) (term : string)
    (entry : JS.record) : Prop :=
  exists column, column ∈ columns /\ ignoreFiltering column = false /\
    contains (JS.toLowerCase (JS.toString (JS.get entry (key column))))
             (JS.toLowerCase term).


(** A consistent comparison callback: a total preorder with its
    equivalence, as the language asks of the callback of [sort]. *)
Definition consistent {A : Type} (cmp : A -> A -> Z) : Prop :=
  (forall x y, cmp x y < 0 <-> 0 < cmp y x)
  /\ (forall x y z, cmp x y <= 0 -> cmp y z <= 0 -> cmp x z <= 0).


End Spec.

(** Two ellipses next to each other in a window. *)
Fixpoint adjacentEllipses (l : list token) : bool :=
  match l with
  | [] => false
  | Ellipse :: ((Ellipse :: _) as l') => true
  | _ :: l' => adjacentEllipses l'
  end.

(** ** The sorts that the language allows *)

(** A comparison callback is consistent on an array when, on the elements
    of the array, it is a consistent comparison. *)
Definition consistentOn {A : Type} (cmp : A -> A -> Z) (l : list A) : Prop :=
  exists cmp' : A -> A -> Z,
    Spec.consistent cmp'
    /\ forall a b, a ∈ l -> b ∈ l -> cmp a b = cmp' a b.





(** ** Sample data *)

Module Sample.

Definition nameColumn : Column :=
  {| key := "name"; label := "Name"; ignoreFiltering := false |}.

Definition ageColumn : Column :=
  {| key := "age"; label := "Age"; ignoreFiltering := false |}.

Definition alice : JS.record :=
  list_to_map [("name", JS.VString "Alice"); ("age", JS.VNumber 30)].

Definition bob : JS.record :=
  list_to_map [("name", JS.VString "Bob"); ("age", JS.VNumber 25)].

(** A record without an age. *)
Definition carol : JS.record :=
  list_to_map [("name", JS.VString "Carol")].

(** Three records, one to a page, sorted by name. *)
Definition options : DataTable.Options :=
  {| DataTable.o_element := Some (Elem 0);
     DataTable.o_data := Some [alice; bob; carol];
     DataTable.o_columns := Some [nameColumn; ageColumn];
     DataTable.o_showSearch := None;
     DataTable.o_pageSize := Some 1;
     DataTable.o_sortColumn := None |}.



(** A call of [tablePage] without data. *)
Definition empty : TableOld.Options :=
  {| TableOld.o_container := Some (Elem 0);
     TableOld.o_data := None;
     TableOld.o_columns := Some [nameColumn; ageColumn];
     TableOld.o_pageSize := None;
     TableOld.o_showSearch := None;
     TableOld.o_sortColumn := None;
     TableOld.o_hasRefresh := None |}.






(** An instance of the class on page 2 of three records, two to a page. *)
Definition instance : DataTable.State :=
  {| DataTable.element := Elem 0;
     DataTable.data := [alice; bob; carol];
     DataTable.filtered := [alice; bob; carol];
     DataTable.paginated := [alice; bob];
     DataTable.columns := [nameColumn; ageColumn];
     DataTable.currentPage := 2;
     DataTable.pageSize := 2;
     DataTable.sortColumn :=
       {| DataTable.sc_key := "name"; DataTable.sc_order := "asc" |};
     DataTable.showSearch := true;
     DataTable.view :=
       {| DataTable.search := true;
          DataTable.tableContainer := DataTable.Blank;
          DataTable.paginationContainer := None |} |}.

(** The variables of a [tablePage] on page 2 of three records, two to a
    page. *)
Definition closure : TableOld.State :=
  {| TableOld.container := Elem 0;
     TableOld.data := [carol; alice; bob];
     TableOld.columns := [nameColumn; ageColumn];
     TableOld.pageSize := 2;
     TableOld.showSearch := true;
     TableOld.sortColumn :=
       {| TableOld.sc_key := "name"; TableOld.sc_order := 1 |};
     TableOld.filtered := [alice; bob; carol];
     TableOld.aliased := false;
     TableOld.currentPage := 2;
     TableOld.view := TableOld.Root true TableOld.Blank |}.


(** An instance whose columns are all left out of the search. *)
Definition unsearchable : DataTable.State :=
  {| DataTable.element := Elem 0;
     DataTable.data := [alice; bob];
     DataTable.filtered := [alice; bob];
     DataTable.paginated := [alice; bob];
     DataTable.columns :=
       [{| key := "name"; label := "Name"; ignoreFiltering := true |}];
     DataTable.currentPage := 1;
     DataTable.pageSize := 2;
     DataTable.sortColumn :=
       {| DataTable.sc_key := "name"; DataTable.sc_order := "asc" |};
     DataTable.showSearch := true;
     DataTable.view :=
       {| DataTable.search := true;
          DataTable.tableContainer := DataTable.Blank;
          DataTable.paginationContainer := None |} |}.



End Sample.

(** ** Notions of the further properties *)

(** [abridges prev l]: read after page [prev], the window [l] goes on with
    the next page at every page number, and every ellipse stands for one
    hidden page or more and is followed by a page number. *)
Fixpoint abridges (prev : Z) (l : list token) : bool :=
  match l with
  | [] => true
  | Page n :: l' => (n =? prev + 1) && abridges n l'
  | Ellipse :: l' =>
      match l' with
      | Page n :: l'' => (prev + 2 <=? n) && abridges n l''
      | _ => false
      end
  end.

(** A text of white space only, the empty text included. *)
Fixpoint blank (s : string) : bool :=
  match s with
  | EmptyString => true
  | String c s' => JS.isWhiteSpace c && blank s'
  end.





(** A text with an upper-case letter. *)
Fixpoint hasUpper (s : string) : bool :=
  match s with
  | EmptyString => false
  | String c s' => JS.isUpper c || hasUpper s'
  end.




(** A record with a string under a key. *)
Definition textual (key : string) (r : JS.record) : Prop :=
  exists t, JS.get r key = JS.VString t.

(** The string that a record has under a key, empty when it has none. *)
Definition stringOf (key : string) (r : JS.record) : string :=
  match JS.get r key with
  | JS.VString t => t
  | _ => EmptyString
  end.

(** The order of the strings under a key, character code by character
    code: ascending for ["asc"], descending for every other order. *)
Definition alphabetical (key order : string) (a b : JS.record) : Prop :=
  if String.eqb order "asc"
  then String.compare (stringOf key a) (stringOf key b) <> Gt
  else String.compare (stringOf key b) (stringOf key a) <> Gt.


(** * Properties *)

(** ** The pagination window *)

Lemma upFrom_range (n : nat) (a : Z) :
  Spec.upFrom n a = (fun i : nat => Z.of_nat i + a) <$> seq 0 n.
Proof.
  revert a. induction n as [|n IH]; intros a; [reflexivity|].
  cbn [Spec.upFrom seq]. rewrite fmap_cons, IH. f_equal.
  rewrite <- seq_shift, <- list_fmap_compose.
  apply list_fmap_ext. intros _ i _. cbn. lia.
Qed.

Lemma interval_range (a b : Z) : Spec.interval a b = range a (b + 1).
Proof.
  unfold Spec.interval, range. rewrite upFrom_range.
  do 2 f_equal. lia.
Qed.

Lemma range_nil (low high : Z) : range low high = [] -> high <= low.
Proof.
  unfold range. intros H. apply fmap_nil_inv in H.
  destruct (Z.to_nat (high - low)) eqn:E; [lia | discriminate].
Qed.

(** C1. The array [items] built by [createPagination] and
    [renderPagination] is the window of the specification for radius 2:
    empty when there is at most one page, and otherwise the leading
    segment, the integers from [max(1, currentPage - 2)] to
    [min(totalPages, currentPage + 2)] and the trailing segment; and it
    yields the four windows that the specification lists. *)
Theorem paginationItems_window (currentPage totalPages : Z) :
  paginationItems currentPage totalPages = Spec.window currentPage totalPages 2
  /\ paginationItems 1 1 = []
  /\ paginationItems 1 10 = [Page 1; Page 2; Page 3; Ellipse; Page 10]
  /\ paginationItems 5 10 =
       [Page 1; Ellipse; Page 3; Page 4; Page 5; Page 6; Page 7; Ellipse; Page 10]
  /\ paginationItems 9 10 = [Page 1; Ellipse; Page 7; Page 8; Page 9; Page 10].
Proof.
  split; [|repeat split; reflexivity].
  unfold paginationItems, Spec.window, paginationRange.
  rewrite interval_range.
  destruct (Z.ltb_spec 1 totalPages), (Z.leb_spec totalPages 1); try lia;
    [|reflexivity].
  rewrite !Z.gtb_ltb. reflexivity.
Qed.

Lemma adjacentEllipses_pages (l : list Z) (post : list token) :
  adjacentEllipses ((Page <$> l) ++ post) = adjacentEllipses post.
Proof. induction l as [|x l IH]; [reflexivity|]. cbn. exact IH. Qed.

(** No window has two ellipses side by side, whatever the current page. *)
Lemma paginationItems_no_adjacent (currentPage pages : Z) :
  adjacentEllipses (paginationItems currentPage pages) = false.
Proof.
  unfold paginationItems, paginationRange.
  destruct (Z.ltb_spec 1 pages); [|reflexivity].
  set (surroundStart := Z.max 1 (currentPage - 2)).
  set (surroundEnd := Z.min pages (currentPage + 2)).
  destruct (range surroundStart (surroundEnd + 1)) as [|x l] eqn:E.
  - apply range_nil in E.
    destruct (Z.ltb_spec 2 surroundStart), (Z.ltb_spec 1 surroundStart),
      (Z.ltb_spec surroundEnd (pages - 1)), (Z.ltb_spec surroundEnd pages);
      try reflexivity; lia.
  - assert (Hmid : forall pre, adjacentEllipses (pre ++ Page x :: (Page <$> l) ++
       (if surroundEnd <? pages - 1 then [Ellipse; Page pages]
        else if surroundEnd <? pages then [Page pages] else [])) =
       adjacentEllipses (pre ++ [Page x])).
    { intros pre. induction pre as [|t pre IH].
      - cbn. rewrite adjacentEllipses_pages.
        destruct (surroundEnd <? pages - 1), (surroundEnd <? pages); reflexivity.
      - destruct t; cbn; [exact IH|].
        destruct pre as [|[]]; cbn in *; try exact IH; reflexivity. }
    rewrite fmap_cons. cbn [app]. rewrite Hmid.
    destruct (2 <? surroundStart), (1 <? surroundStart); reflexivity.
Qed.

(** C8. For a current page between 1 and the number of pages, the window
    never has two ellipses next to each other. *)
Theorem paginationItems_ellipses_apart (currentPage totalPages : Z) :
  1 <= currentPage <= totalPages ->
  adjacentEllipses (paginationItems currentPage totalPages) = false.
Proof. intros _. apply paginationItems_no_adjacent. Qed.

Lemma paginationItems_ellipses_apart_witness :
  1 <= 5 <= 10 /\ adjacentEllipses (paginationItems 5 10) = false.
Proof.
  split; [lia|]. apply (paginationItems_ellipses_apart 5 10). lia.
Defined.

(** ** Pagination *)

Section Paginate.
Context {A : Type}.
Implicit Types (data l : list A) (pageSize currentPage : Z).

(** Between two indices that are not negative, [slice] drops and takes. *)
Lemma slice_nonneg l (a b : Z) :
  0 <= a <= b ->
  JS.slice l a b = take (Z.to_nat (b - a)) (drop (Z.to_nat a) l).
Proof.
  intros H. unfold JS.slice, JS.relativeIndex.
  destruct (Z.ltb_spec a 0), (Z.ltb_spec b 0); try lia.
  destruct (decide (Z.of_nat (length l) <= a)) as [Hlen|Hlen].
  - rewrite (Z.min_r a) by lia. rewrite !drop_ge by lia. by rewrite !take_nil.
  - rewrite (Z.min_l a) by lia.
    destruct (decide (b <= Z.of_nat (length l))).
    + by rewrite Z.min_l by lia.
    + rewrite Z.min_r by lia.
      rewrite !take_ge; [done | rewrite length_drop; lia ..].
Qed.

(** Page [i + 1] is the [i]-th run of [pageSize] elements. *)
Lemma paginate_chunk data (i : nat) pageSize :
  0 < pageSize ->
  paginate data (Z.of_nat i + 1) pageSize =
  take (Z.to_nat pageSize) (drop (i * Z.to_nat pageSize) data).
Proof.
  intros H. unfold paginate. rewrite slice_nonneg by nia.
  f_equal; [f_equal; lia | f_equal; nia].
Qed.

Lemma chunks_concat (n m : nat) l :
  (length l <= m * n)%nat ->
  concat ((fun i : nat => take n (drop (i * n) l)) <$> seq 0 m) = l.
Proof.
  revert l. induction m as [|m IH]; intros l Hl.
  - destruct l; [reflexivity | cbn in Hl; lia].
  - cbn [seq]. rewrite fmap_cons. cbn [concat].
    rewrite <- seq_shift, <- list_fmap_compose.
    rewrite (list_fmap_ext _ (fun i : nat => take n (drop (i * n) (drop n l))) (seq 0 m)).
    + rewrite IH by (rewrite length_drop; lia).
      cbn [Nat.mul drop]. apply take_drop.
    + intros _ i _. cbn [compose]. rewrite drop_drop. do 2 f_equal; lia.
Qed.

Lemma pageCount_bounds data pageSize :
  0 < pageSize ->
  pageSize * (pageCount data pageSize - 1) < Z.of_nat (length data)
    <= pageSize * pageCount data pageSize
  \/ (length data = 0%nat /\ pageCount data pageSize = 0).
Proof.
  intros H. unfold pageCount, JS.ceilDiv.
  pose proof (Z.div_mod (- Z.of_nat (length data)) pageSize ltac:(lia)) as Hd.
  pose proof (Z.mod_pos_bound (- Z.of_nat (length data)) pageSize H) as Hm.
  destruct (length data) as [|n]; [right | left; nia].
  split; [done|]. rewrite Z.div_0_l by lia. done.
Qed.

Lemma length_slice_le l (a b : Z) :
  a <= b -> Z.of_nat (length (JS.slice l a b)) <= b - a.
Proof.
  intros H.
  unfold JS.slice, JS.relativeIndex. rewrite length_take, length_drop.
  destruct (Z.ltb_spec a 0), (Z.ltb_spec b 0); lia.
Qed.

(** C3. With a positive page size, the pages 1 to
    [ceil(length / pageSize)], one after the other, are the data; no page
    is longer than the page size, and every page before the last one has
    exactly that length. *)
Theorem paginate_pages data pageSize :
  0 < pageSize ->
  let totalPages := pageCount data pageSize in
  concat ((fun p => paginate data p pageSize) <$> range 1 (totalPages + 1)) = data
  /\ (forall p, Z.of_nat (length (paginate data p pageSize)) <= pageSize)
  /\ (forall p, 1 <= p < totalPages ->
        Z.of_nat (length (paginate data p pageSize)) = pageSize).
Proof.
  intros H totalPages. repeat split.
  - unfold range. rewrite <- list_fmap_compose.
    rewrite (list_fmap_ext _
      (fun i : nat => take (Z.to_nat pageSize) (drop (i * Z.to_nat pageSize) data))
      (seq 0 (Z.to_nat (totalPages + 1 - 1)))).
    + apply chunks_concat.
      destruct (pageCount_bounds data pageSize H) as [Hb|[Hb _]];
        fold totalPages in Hb; nia.
    + intros _ i _. cbn [compose]. by apply paginate_chunk.
  - intros p. unfold paginate.
    etransitivity; [apply length_slice_le|]; lia.
  - intros p Hp.
    replace p with (Z.of_nat (Z.to_nat (p - 1)) + 1) by lia.
    rewrite paginate_chunk by done.
    rewrite length_take, length_drop.
    destruct (pageCount_bounds data pageSize H) as [Hb|[_ Hb]];
      fold totalPages in Hb; nia.
Qed.

End Paginate.

Lemma paginate_pages_witness :
  0 < 2
  /\ concat ((fun p => paginate [10; 20; 30; 40; 50] p 2)
               <$> range 1 (pageCount [10; 20; 30; 40; 50] 2 + 1))
     = [10; 20; 30; 40; 50].
Proof.
  split; [lia|]. apply (paginate_pages [10; 20; 30; 40; 50] 2). lia.
Defined.

(** C4 as the specification has it fails: page [-1] of five records, two
    to a page, is not empty. *)
Lemma paginate_negative_page_not_empty :
  -1 <= 0 /\ paginate [10; 20; 30; 40; 50] (-1) 2 = [20; 30]
  /\ paginate [10; 20; 30; 40; 50] (-1) 2 <> [].
Proof. split; [lia|]. split; [reflexivity | discriminate]. Qed.

(** C4, amended. With a positive page size, a page beyond the last one and
    page 0 are empty; a negative page is a slice counted from the end of
    the data, empty exactly when the data has at most
    [pageSize * |currentPage|] elements. [paginate] is a total function
    (nothing is thrown), and the method of the class stores the slice and
    leaves [currentPage] as it is. *)
Theorem paginate_out_of_range (pageSize : Z) :
  0 < pageSize ->
  (forall (data : list JS.record) (currentPage : Z),
     (pageCount data pageSize < currentPage \/ currentPage = 0 ->
      paginate data currentPage pageSize = [])
     /\ (currentPage < 0 ->
         (paginate data currentPage pageSize = []
          <-> Z.of_nat (length data) <= pageSize * - currentPage)))
  /\ (forall s : DataTable.State,
        DataTable.pageSize s = pageSize ->
        DataTable.currentPage (DataTable.paginate s) = DataTable.currentPage s
        /\ DataTable.paginated (DataTable.paginate s) =
           paginate (DataTable.filtered s) (DataTable.currentPage s) pageSize).
Proof.
  intros H. split.
  - intros data currentPage. split.
    + intros [Hp| ->].
      * unfold paginate.
        destruct (pageCount_bounds data pageSize H) as [Hb|[Hb Hc]].
        -- rewrite slice_nonneg by nia. rewrite drop_ge by nia. apply take_nil.
        -- destruct data; [|discriminate]. rewrite slice_nonneg by nia.
           by rewrite drop_nil, take_nil.
      * apply nil_length_inv.
        unfold paginate, JS.slice, JS.relativeIndex.
        rewrite length_take, length_drop.
        destruct (Z.ltb_spec (pageSize * (0 - 1)) 0),
          (Z.ltb_spec (pageSize * (0 - 1) + pageSize) 0); lia.
    + intros Hp. rewrite <- length_zero_iff_nil.
      unfold paginate, JS.slice, JS.relativeIndex.
      rewrite length_take, length_drop.
      destruct (Z.ltb_spec (pageSize * (currentPage - 1)) 0),
        (Z.ltb_spec (pageSize * (currentPage - 1) + pageSize) 0); nia.
  - intros s <-. split; reflexivity.
Qed.

Lemma paginate_out_of_range_witness :
  0 < 2
  /\ paginate [Sample.alice; Sample.bob; Sample.carol] 3 2 = []
  /\ paginate [Sample.alice; Sample.bob; Sample.carol] 0 2 = []
  /\ paginate [Sample.alice; Sample.bob; Sample.carol] (-1) 2 <> [].
Proof.
  assert (Hs : 0 < 2) by lia.
  destruct (paginate_out_of_range 2 Hs) as [Hpage _].
  split; [exact Hs|]. split; [|split].
  - apply (proj1 (Hpage [Sample.alice; Sample.bob; Sample.carol] 3)).
    left. reflexivity.
  - apply (proj1 (Hpage [Sample.alice; Sample.bob; Sample.carol] 0)).
    right. reflexivity.
  - intros Hnil.
    apply (proj2 (Hpage [Sample.alice; Sample.bob; Sample.carol] (-1))) in Hnil;
      [|reflexivity].
    cbn in Hnil. lia.
Defined.

(** ** Strings *)

Lemma append_String (a : ascii) (s t : string) :
  (String a s ++ t)%string = String a (s ++ t)%string.
Proof. reflexivity. Qed.

Lemma startsWith_spec (s t : string) :
  JS.startsWith s t = true <-> exists post, s = (t ++ post)%string.
Proof.
  revert s. induction t as [|b t IH]; intros s.
  - destruct s; cbn; split; eauto.
  - destruct s as [|a s]; cbn.
    + split; [discriminate | intros [post Hp]; discriminate].
    + destruct (Ascii.eqb_spec a b) as [->|Hne].
      * rewrite IH.
        split; intros [post Hp]; exists post; rewrite append_String in *; congruence.
      * split; [discriminate|].
        intros [post Hp]. rewrite append_String in Hp. congruence.
Qed.

Lemma includes_spec (s t : string) :
  JS.includes s t = true <-> Spec.contains s t.
Proof.
  unfold Spec.contains. induction s as [|a s IH]; cbn [JS.includes].
  - rewrite orb_false_r, startsWith_spec. split.
    + intros [post Hp]. exists EmptyString, post. exact Hp.
    + intros (pre & post & Hp). destruct pre; [eauto | discriminate].
  - rewrite orb_true_iff, startsWith_spec, IH. split.
    + intros [[post Hp] | (pre & post & Hp)].
      * exists EmptyString, post. exact Hp.
      * exists (String a pre), post. rewrite append_String. congruence.
    + intros (pre & post & Hp). destruct pre as [|a' pre].
      * left. eauto.
      * right. exists pre, post. rewrite append_String in Hp. congruence.
Qed.

Lemma indexOfFrom_includes (s t : string) (i : Z) :
  0 <= i -> (JS.indexOfFrom s t i =? -1) = negb (JS.includes s t).
Proof.
  revert i. induction s as [|a s IH]; intros i Hi;
    cbn [JS.indexOfFrom JS.includes]; destruct (JS.startsWith _ t); cbn [orb negb].
  - apply Z.eqb_neq. lia.
  - reflexivity.
  - apply Z.eqb_neq. lia.
  - apply IH. lia.
Qed.

(** [s.indexOf(t) !== -1] and [s.includes(t)] are one test. *)
Lemma indexOf_includes (s t : string) :
  negb (JS.indexOf s t =? -1) = JS.includes s t.
Proof.
  unfold JS.indexOf. rewrite indexOfFrom_includes by lia. apply negb_involutive.
Qed.

Lemma toLowerCaseChar_idemp (c : ascii) :
  JS.toLowerCaseChar (JS.toLowerCaseChar c) = JS.toLowerCaseChar c.
Proof.
  destruct c as [[] [] [] [] [] [] [] []]; reflexivity.
Qed.

(** Case folding folds once and for all. *)
Lemma toLowerCase_idemp (s : string) :
  JS.toLowerCase (JS.toLowerCase s) = JS.toLowerCase s.
Proof.
  induction s as [|c s IH]; [reflexivity|].
  cbn. by rewrite toLowerCaseChar_idemp, IH.
Qed.


(** ** Filtering *)

Section Filter.
Context {A : Type}.





End Filter.


(** The callback of the class is the predicate of the specification for the
    term it is given. *)
Lemma entryMatches_spec (columns : list Column) (searchTerm : string)
    (entry : JS.record) :
  DataTable.entryMatches columns searchTerm entry = true <->
  exists column, column ∈ columns /\ ignoreFiltering column = false /\
    Spec.contains (JS.toLowerCase (JS.toString (JS.get entry (key column))))
                  searchTerm.
Proof.
  induction columns as [|c columns IH]; cbn [DataTable.entryMatches].
  - split; [discriminate | intros (c & []%elem_of_nil & _)].
  - rewrite indexOf_includes.
    destruct (ignoreFiltering c) eqn:Ec; cbn [negb].
    + rewrite IH. split; intros (c' & Hin & Hi & Hc).
      * exists c'. rewrite elem_of_cons. auto.
      * apply elem_of_cons in Hin as [->|Hin]; [congruence | eauto].
    + destruct (JS.includes _ searchTerm) eqn:Ei.
      * split; [intros _ | done]. exists c.
        rewrite elem_of_cons, <- includes_spec. auto.
      * rewrite IH. split; intros (c' & Hin & Hi & Hc).
        -- exists c'. rewrite elem_of_cons. auto.
        -- apply elem_of_cons in Hin as [->|Hin]; [|eauto].
           apply includes_spec in Hc. congruence.
Qed.



Lemma DataTable_render_filtered (s : DataTable.State) :
  DataTable.filtered (DataTable.render s) = DataTable.filtered s.
Proof. unfold DataTable.render. by destruct (negb _). Qed.




(** C2, evaluated where it fails. In [table-old.js], [init] hands the text
    of the search box to [filterByTerm] as it is, neither trimmed nor
    case-folded, while the values are case-folded: the record [bob]
    matches the terms ["Bob"] and ["bob"], the [keyup] listener keeps it
    for the text ["Bob"], and yet [update] with ["Bob"] or with [" bob"] in
    the search box keeps no record at all. *)
Theorem filter_raw_text :
  let o := TableOld.setData Sample.closure [Sample.alice; Sample.bob] in
  Spec.matches (TableOld.columns o) "Bob" Sample.bob
  /\ Spec.matches (TableOld.columns o) (JS.trim " bob") Sample.bob
  /\ TableOld.filtered (TableOld.keyup "Bob" o) = [Sample.bob]
  /\ TableOld.filtered
       (TableOld.update "Bob" [Sample.alice; Sample.bob] Sample.closure) = []
  /\ TableOld.filtered
       (TableOld.update " bob" [Sample.alice; Sample.bob] Sample.closure) = [].
Proof.
  assert (Hbob : forall term, JS.toLowerCase term = "bob" ->
    Spec.matches [Sample.nameColumn; Sample.ageColumn] term Sample.bob).
  { intros term Hterm. exists Sample.nameColumn.
    split; [apply list_elem_of_here|]. split; [reflexivity|].
    rewrite Hterm. by exists EmptyString, EmptyString. }
  cbn zeta. repeat split; try reflexivity; by apply Hbob.
Qed.

(** C6, evaluated where it fails. The record [carol] has no age; its age
    reads [undefined], whose string is ["undefined"], and the search for
    ["undef"] in the age column keeps the record, in both widgets. *)
Theorem missing_value_matches :
  JS.get Sample.carol "age" = JS.VUndefined
  /\ JS.toString (JS.get Sample.carol "age") = "undefined"
  /\ DataTable.entryMatches [Sample.ageColumn] "undef" Sample.carol = true
  /\ TableOld.entryMatches [Sample.ageColumn] "undef" Sample.carol = true
  /\ List.filter (DataTable.entryMatches [Sample.ageColumn] "undef")
       [Sample.alice; Sample.bob; Sample.carol] = [Sample.carol].
Proof. repeat split; vm_compute; reflexivity. Qed.

(** ** Sort requests *)

Section SortRequest.
Context `{!Runtime}.

(** In [table.js] a click on a header sorts and leaves the page alone. *)
Lemma Table_click_currentPage (column : Column) (s : DataTable.State) :
  DataTable.currentPage (Table.click column s) = DataTable.currentPage s.
Proof.
  unfold Table.click, DataTable.render.
  destruct (ignoreFiltering column); [done|]. by destruct (negb _).
Qed.

(** In the revision a click on a header goes to page 1 and leaves the
    order of the records alone. *)
Lemma Revision_click_filtered (column : Column) (s : DataTable.State) :
  DataTable.filtered (Revision.click column s) = DataTable.filtered s
  /\ DataTable.data (Revision.click column s) = DataTable.data s.
Proof.
  unfold Revision.click, DataTable.render.
  destruct (ignoreFiltering column); [done|]. by destruct (negb _).
Qed.

(** In [table-old.js] a click on a header does all of a sort request: the
    order of the active column is reversed, another column becomes the
    sort column in ascending order, the filtered records are sorted again
    and the page is 1. *)
Lemma TableOld_clickHeader (column : Column) (o : TableOld.State) :
  ignoreFiltering column = false ->
  let o' := TableOld.clickHeader column o in
  TableOld.sortColumn o' =
    {| TableOld.sc_key := key column;
       TableOld.sc_order :=
         if String.eqb (TableOld.sc_key (TableOld.sortColumn o)) (key column)
         then TableOld.sc_order (TableOld.sortColumn o) * -1 else 1 |}
  /\ TableOld.filtered o' =
     JS.sort (TableOld.compare (TableOld.sortColumn o')) (TableOld.filtered o)
  /\ TableOld.currentPage o' = 1.
Proof.
  intros Hc. unfold TableOld.clickHeader. rewrite Hc.
  unfold TableOld.orderBy, TableOld.render, TableOld.sortFiltered.
  cbn. destruct (0 <? _), (TableOld.aliased o); done.
Qed.

End SortRequest.

(** C5, evaluated where it fails. The table of [Sample.options] shows three
    records, one to a page, sorted by name. In [table.js], on page 2, a
    click on the header of the name column reverses the order and stays on
    page 2. In the revision the same click sets the order to ["desc"] and
    goes to page 1, and the records stay in ascending order. *)
Theorem sort_request_defects :
  match Table.constructor Sample.options with
  | inl _ => False
  | inr s =>
      let s' := Table.click Sample.nameColumn (DataTable.changePage 2 s) in
      DataTable.sortColumn s' =
        {| DataTable.sc_key := "name"; DataTable.sc_order := "desc" |}
      /\ DataTable.filtered s' = [Sample.carol; Sample.bob; Sample.alice]
      /\ DataTable.currentPage s' = 2
  end
  /\ match Revision.constructor Sample.options with
     | inl _ => False
     | inr s =>
         let s' := Revision.click Sample.nameColumn (DataTable.changePage 2 s) in
         DataTable.sortColumn s' =
           {| DataTable.sc_key := "name"; DataTable.sc_order := "desc" |}
         /\ DataTable.currentPage s' = 1
         /\ DataTable.filtered s' = [Sample.alice; Sample.bob; Sample.carol]
         /\ JS.sort (DataTable.compare "name" "desc") (DataTable.filtered s')
            = [Sample.carol; Sample.bob; Sample.alice]
     end.
Proof. split; vm_compute; repeat split; reflexivity. Qed.

(** ** Construction *)




(** C10. When [tablePage] does not throw, is given no data and is not asked
    for a refresh, the container shows the no-records card alone and the
    call returns [undefined]: there is no [update] to replace the data
    with. *)
Theorem tablePage_without_data `{!Runtime} (search : option string)
    (o : TableOld.Options) :
  (forall e, TableOld.tablePage search o <> inl e) ->
  default [] (TableOld.o_data o) = [] ->
  default false (TableOld.o_hasRefresh o) = false ->
  TableOld.tablePage search o =
  inr {| TableOld.shown := TableOld.CardOnly; TableOld.returned := None |}.
Proof.
  intros Hthrow Hdata Hrefresh. revert Hthrow.
  unfold TableOld.tablePage. rewrite Hdata, Hrefresh.
  destruct (match TableOld.o_sortColumn o with Some _ => _ | None => _ end);
    [|intros Hno; by destruct (Hno TypeError)].
  destruct (TableOld.o_container o);
    [done | intros Hno; by destruct (Hno (Error "Element not found."))].
Qed.

Lemma tablePage_without_data_witness :
  TableOld.tablePage None Sample.empty =
  inr {| TableOld.shown := TableOld.CardOnly; TableOld.returned := None |}.
Proof.
  apply (tablePage_without_data None Sample.empty); [discriminate | done | done].
Defined.

(** ** Sorting *)

Section SortFacts.
Context {A : Type} (cmp : A -> A -> Z).

(** The callback never asks for [x] after [y] and for [y] after [x]. *)
Hypothesis cmp_anti : forall x y, 0 < cmp x y -> cmp y x <= 0.

Lemma insert_sorted_Sorted (x : A) (l : list A) :
  Sorted (fun a b => cmp a b <= 0) l ->
  Sorted (fun a b => cmp a b <= 0) (JS.insert_sorted cmp x l).
Proof.
  induction l as [|y l IH]; intros Hl; cbn [JS.insert_sorted].
  - by repeat constructor.
  - destruct (Z.leb_spec (cmp x y) 0) as [Hxy|Hxy].
    + constructor; [done|]. by constructor.
    + apply Sorted_inv in Hl as [Hl Hy].
      constructor; [by apply IH|].
      destruct l as [|z l]; cbn [JS.insert_sorted].
      * constructor. by apply cmp_anti.
      * destruct (cmp x z <=? 0); constructor.
        -- by apply cmp_anti.
        -- by apply HdRel_inv in Hy.
Qed.

(** A sorted array has every element in front of its successor. *)
Lemma sort_Sorted (l : list A) :
  Sorted (fun a b => cmp a b <= 0) (JS.sort cmp l).
Proof.
  induction l as [|x l IH]; cbn [JS.sort]; [constructor|].
  by apply insert_sorted_Sorted.
Qed.

(** Sorting leaves such an array as it is. *)
Lemma sort_fixed (l : list A) :
  Sorted (fun a b => cmp a b <= 0) l -> JS.sort cmp l = l.
Proof.
  induction 1 as [|x l Hl IH Hx]; [done|].
  cbn [JS.sort]. rewrite IH.
  destruct Hx as [|y l Hxy]; cbn [JS.insert_sorted]; [done|].
  destruct (Z.leb_spec (cmp x y) 0); [done | lia].
Qed.

Lemma sort_idemp (l : list A) : JS.sort cmp (JS.sort cmp l) = JS.sort cmp l.
Proof. apply sort_fixed, sort_Sorted. Qed.

End SortFacts.

Section Comparators.
Context `{!Runtime}.


Lemma DataTable_compare_anti (key order : string) (x y : JS.record) :
  0 < DataTable.compare key order x y -> DataTable.compare key order y x <= 0.
Proof.
  unfold DataTable.compare, JS.lt.
  destruct (String.eqb order "asc"),
    (JS.gt stringToNumber (JS.get x key) (JS.get y key)),
    (JS.gt stringToNumber (JS.get y key) (JS.get x key)); cbn; lia.
Qed.


End Comparators.

(** *** The model of [sort] and the stable sorts of the language

    For a consistent callback the result of a stable sort is determined,
    and [JS.sort] computes it: on such callbacks the model stands for every
    implementation of [Array.prototype.sort]. *)

Section StableSort.
Context {A : Type} (cmp : A -> A -> Z).
Hypothesis cmp_consistent : Spec.consistent cmp.




Lemma insert_sorted_Permutation (x : A) (l : list A) :
  JS.insert_sorted cmp x l ≡ₚ x :: l.
Proof.
  induction l as [|y l IH]; cbn [JS.insert_sorted]; [done|].
  destruct (cmp x y <=? 0); [done|]. rewrite IH. apply perm_swap.
Qed.

Lemma sort_Permutation (l : list A) : l ≡ₚ JS.sort cmp l.
Proof.
  induction l as [|x l IH]; cbn [JS.sort]; [done|].
  rewrite insert_sorted_Permutation. by apply perm_skip.
Qed.






End StableSort.

(** On numbers the comparison [(a > b) - (a < b)] of [sortData] is
    consistent. *)
Lemma compare_numbers_consistent `{!Runtime} :
  Spec.consistent (fun x y : Z =>
    JS.ofBool (JS.gt stringToNumber (JS.VNumber x) (JS.VNumber y))
    - JS.ofBool (JS.lt stringToNumber (JS.VNumber x) (JS.VNumber y))).
Proof.
  split.
  - intros x y. unfold JS.lt. cbn.
    destruct (Z.ltb_spec y x), (Z.ltb_spec x y); cbn; lia.
  - intros x y z. unfold JS.lt. cbn.
    destruct (Z.ltb_spec y x), (Z.ltb_spec x y), (Z.ltb_spec z y),
      (Z.ltb_spec y z), (Z.ltb_spec z x), (Z.ltb_spec x z); cbn; lia.
Qed.

(** * Further properties *)

(** ** [range] and the pagination window *)

(** X1. [range(low, high)] has [high - low] elements (none when [high] is
    not above [low]), its element of index [i] is [low + i], and its
    elements are the integers from [low] up to, and without, [high]. *)
Theorem range_elements (low high : Z) :
  length (range low high) = Z.to_nat (high - low)
  /\ (forall i : nat, (i < Z.to_nat (high - low))%nat ->
        range low high !! i = Some (low + Z.of_nat i))
  /\ (forall x, x ∈ range low high <-> low <= x < high).
Proof.
  unfold range. split; [|split].
  - by rewrite length_fmap, length_seq.
  - intros i Hi. rewrite list_lookup_fmap, lookup_seq_lt by done.
    cbn. f_equal. lia.
  - intros x. rewrite list_elem_of_fmap. split.
    + intros (i & -> & Hi%elem_of_seq). lia.
    + intros Hx. exists (Z.to_nat (x - low)). split; [lia|].
      apply elem_of_seq. lia.
Qed.

Lemma range_cons (low high : Z) :
  low < high -> range low high = low :: range (low + 1) high.
Proof.
  intros H. unfold range.
  replace (Z.to_nat (high - low)) with (S (Z.to_nat (high - (low + 1)))) by lia.
  cbn [seq]. rewrite fmap_cons. f_equal.
  rewrite <- seq_shift, <- list_fmap_compose.
  apply list_fmap_ext. intros _ i _. cbn. lia.
Qed.

Lemma elem_of_range (x low high : Z) : x ∈ range low high <-> low <= x < high.
Proof.
  unfold range. rewrite list_elem_of_fmap. split.
  - intros (i & -> & Hi%elem_of_seq). lia.
  - intros Hx. exists (Z.to_nat (x - low)). split; [lia|].
    apply elem_of_seq. lia.
Qed.

Lemma elem_of_Page_fmap (n : Z) (l : list Z) : Page n ∈ Page <$> l <-> n ∈ l.
Proof.
  rewrite list_elem_of_fmap. split.
  - intros (m & [= ->] & Hm). done.
  - intros Hn. eauto.
Qed.

(** X2. With more than one page and the current page among them, the
    window shows page [n] exactly when [n] is the first page, the last
    page or a page at most two away from the current one; it has at most
    nine entries. *)
Theorem paginationItems_pages (currentPage pages : Z) :
  1 < pages -> 1 <= currentPage <= pages ->
  (forall n, Page n ∈ paginationItems currentPage pages <->
             1 <= n <= pages /\
             (n = 1 \/ n = pages \/ currentPage - 2 <= n <= currentPage + 2))
  /\ (length (paginationItems currentPage pages) <= 9)%nat.
Proof.
  intros Hp Hc. unfold paginationItems, paginationRange.
  destruct (Z.ltb_spec 1 pages); [|lia].
  set (surroundStart := Z.max 1 (currentPage - 2)).
  set (surroundEnd := Z.min pages (currentPage + 2)).
  split.
  - intros n. rewrite !elem_of_app, elem_of_Page_fmap, elem_of_range.
    assert (Hinj : forall m, Page n = Page m <-> n = m)
      by (intros m; split; [intros [= ->] | intros ->]; done).
    assert (Hne : Page n = Ellipse <-> False) by (split; [discriminate | done]).
    destruct (Z.ltb_spec 2 surroundStart), (Z.ltb_spec 1 surroundStart),
      (Z.ltb_spec surroundEnd (pages - 1)), (Z.ltb_spec surroundEnd pages);
      rewrite ?elem_of_cons, ?elem_of_nil, ?Hinj, ?Hne; lia.
  - rewrite !length_app, length_fmap.
    unfold range. rewrite length_fmap, length_seq.
    destruct (2 <? surroundStart), (1 <? surroundStart),
      (surroundEnd <? pages - 1), (surroundEnd <? pages); cbn [length]; lia.
Qed.

Lemma paginationItems_pages_witness :
  1 < 10 /\ 1 <= 5 <= 10 /\ Page 7 ∈ paginationItems 5 10.
Proof.
  split; [lia|]. split; [lia|].
  apply (proj1 (paginationItems_pages 5 10 ltac:(lia) ltac:(lia)) 7). lia.
Defined.

Lemma range_snoc (low high : Z) :
  low < high -> range low high = (range low (high - 1) ++ [high - 1])%list.
Proof.
  intros H. unfold range.
  replace (Z.to_nat (high - low)) with (S (Z.to_nat (high - 1 - low))) by lia.
  rewrite seq_S, fmap_app. cbn. do 2 f_equal. lia.
Qed.

Lemma abridges_range (low high : Z) (rest : list token) :
  low <= high ->
  abridges (low - 1) ((Page <$> range low high) ++ rest)
  = abridges (high - 1) rest.
Proof.
  intros H.
  remember (Z.to_nat (high - low)) as n eqn:En.
  revert low H En. induction n as [|n IH]; intros low H En.
  - replace high with low by lia. unfold range.
    by replace (Z.to_nat (low - low)) with 0%nat by lia.
  - rewrite range_cons by lia. rewrite fmap_cons. cbn [app abridges].
    replace (low =? low - 1 + 1) with true by lia. cbn [andb].
    replace low with (low + 1 - 1) at 1 by lia.
    apply IH; lia.
Qed.

(** X3. With more than one page and the current page among them, the
    window is an abridged list of the pages: it starts with page 1 and
    ends with the last page, a page number is followed by the next page
    or by an ellipse, and an ellipse stands for one hidden page or more. *)
Theorem paginationItems_abridges (currentPage pages : Z) :
  1 < pages -> 1 <= currentPage <= pages ->
  head (paginationItems currentPage pages) = Some (Page 1)
  /\ abridges 0 (paginationItems currentPage pages) = true
  /\ last (paginationItems currentPage pages) = Some (Page pages).
Proof.
  intros Hp Hc. unfold paginationItems, paginationRange.
  destruct (Z.ltb_spec 1 pages); [|lia].
  set (surroundStart := Z.max 1 (currentPage - 2)).
  set (surroundEnd := Z.min pages (currentPage + 2)).
  assert (Hse : surroundStart <= surroundEnd) by lia.
  split; [|split].
  - destruct (Z.ltb_spec 2 surroundStart); [done|].
    destruct (Z.ltb_spec 1 surroundStart); [done|].
    rewrite (range_cons surroundStart) by lia. cbn. do 2 f_equal. lia.
  - assert (Htrail : abridges (surroundEnd + 1 - 1)
      (if surroundEnd <? pages - 1 then [Ellipse; Page pages]
       else if surroundEnd <? pages then [Page pages] else []) = true).
    { destruct (Z.ltb_spec surroundEnd (pages - 1)),
        (Z.ltb_spec surroundEnd pages); cbn [abridges];
        rewrite ?andb_true_r; lia. }
    destruct (Z.ltb_spec 2 surroundStart); [|destruct (Z.ltb_spec 1 surroundStart)].
    + rewrite (range_cons surroundStart) by lia. rewrite fmap_cons.
      cbn [app abridges].
      replace (1 =? 0 + 1) with true by lia.
      replace (1 + 2 <=? surroundStart) with true by lia. cbn [andb].
      replace surroundStart with (surroundStart + 1 - 1) at 1 by lia.
      rewrite abridges_range by lia. exact Htrail.
    + cbn [app abridges]. replace (1 =? 0 + 1) with true by lia. cbn [andb].
      replace 1 with (surroundStart - 1) at 1 by lia.
      rewrite abridges_range by lia. exact Htrail.
    + cbn [app]. replace 0 with (surroundStart - 1) at 1 by lia.
      rewrite abridges_range by lia. exact Htrail.
  - rewrite !last_app.
    destruct (Z.ltb_spec surroundEnd (pages - 1)); [done|].
    destruct (Z.ltb_spec surroundEnd pages); [done|].
    rewrite (range_snoc surroundStart) by lia.
    rewrite fmap_app, last_app. cbn. f_equal. f_equal. lia.
Qed.

Lemma paginationItems_abridges_witness :
  1 < 10 /\ 1 <= 5 <= 10
  /\ head (paginationItems 5 10) = Some (Page 1)
  /\ abridges 0 (paginationItems 5 10) = true
  /\ last (paginationItems 5 10) = Some (Page 10).
Proof.
  split; [lia|]. split; [lia|].
  apply (paginationItems_abridges 5 10); lia.
Defined.

(** ** Pages and captions *)

Lemma paginate_length {A : Type} (data : list A) (pageSize p : Z) :
  0 < pageSize -> 1 <= p <= pageCount data pageSize ->
  0 < Z.of_nat (length (paginate data p pageSize))
  /\ Z.of_nat (length (paginate data p pageSize))
     = Z.min pageSize (Z.of_nat (length data) - pageSize * (p - 1)).
Proof.
  intros Hs Hp.
  replace p with (Z.of_nat (Z.to_nat (p - 1)) + 1) in * by lia.
  rewrite paginate_chunk by done.
  rewrite length_take, length_drop.
  destruct (pageCount_bounds data pageSize Hs) as [Hb|[_ Hb]]; nia.
Qed.

(** X4. With a positive page size, row [i] of page [p >= 1] is the record
    of index [pageSize * (p - 1) + i] of the data; and a page up to the
    last one is not empty: it has [pageSize] records, or what is left of
    the data when that is less. *)
Theorem paginate_rows {A : Type} (data : list A) (pageSize p : Z) :
  0 < pageSize -> 1 <= p ->
  (forall i : nat, Z.of_nat i < pageSize ->
     paginate data p pageSize !! i
     = data !! Z.to_nat (pageSize * (p - 1) + Z.of_nat i))
  /\ (p <= pageCount data pageSize ->
      0 < Z.of_nat (length (paginate data p pageSize))
      /\ Z.of_nat (length (paginate data p pageSize))
         = Z.min pageSize (Z.of_nat (length data) - pageSize * (p - 1))).
Proof.
  intros Hs Hp. split; [|intros Hc; apply paginate_length; lia].
  replace p with (Z.of_nat (Z.to_nat (p - 1)) + 1) by lia.
  rewrite paginate_chunk by done.
  intros i Hi. rewrite lookup_take_lt by lia. rewrite lookup_drop.
  f_equal. nia.
Qed.

Lemma paginate_rows_witness :
  0 < 2 /\ 1 <= 2 /\ paginate [10; 20; 30; 40; 50] 2 2 !! 1%nat = Some 40.
Proof.
  split; [lia|]. split; [lia|].
  apply (proj1 (paginate_rows [10; 20; 30; 40; 50] 2 2 ltac:(lia) ltac:(lia)) 1%nat).
  lia.
Defined.

(** X5. In [table-old.js], with a positive page size and the current page
    among the pages, [render] draws the table with the rows of the current
    page, and the caption counts them: it starts at
    [pageSize * (currentPage - 1) + 1], ends at [pageSize * currentPage]
    or at the number of filtered records when that is less, and never
    starts after it ends. *)
Theorem TableOld_render_caption (o : TableOld.State) :
  0 < TableOld.pageSize o ->
  1 <= TableOld.currentPage o
    <= pageCount (TableOld.filtered o) (TableOld.pageSize o) ->
  exists pagination,
    TableOld.view (TableOld.render o) =
      TableOld.setTableContainer (TableOld.view o)
        (TableOld.Table
           (paginate (TableOld.filtered o) (TableOld.currentPage o)
                     (TableOld.pageSize o))
           pagination)
    /\ TableOld.startItemIndex pagination
       = TableOld.pageSize o * (TableOld.currentPage o - 1) + 1
    /\ TableOld.endItemIndex pagination
       = Z.min (TableOld.pageSize o * TableOld.currentPage o)
               (Z.of_nat (length (TableOld.filtered o)))
    /\ TableOld.totalItems pagination = Z.of_nat (length (TableOld.filtered o))
    /\ 1 <= TableOld.startItemIndex pagination
         <= TableOld.endItemIndex pagination
    /\ TableOld.items pagination
       = paginationItems (TableOld.currentPage o)
           (pageCount (TableOld.filtered o) (TableOld.pageSize o)).
Proof.
  intros Hs Hc.
  destruct (paginate_length (TableOld.filtered o) (TableOld.pageSize o)
              (TableOld.currentPage o) Hs Hc) as [Hpos Heq].
  destruct (pageCount_bounds (TableOld.filtered o) (TableOld.pageSize o) Hs)
    as [Hb|[_ Hb]]; [|lia].
  unfold TableOld.render.
  destruct (Z.ltb_spec 0 (Z.of_nat (length (TableOld.filtered o)))); [|nia].
  eexists. split; [reflexivity|]. cbn.
  repeat split; try lia; nia.
Qed.


Lemma TableOld_render_caption_witness :
  exists pagination,
    TableOld.view (TableOld.render Sample.closure) =
      TableOld.Root true (TableOld.Table [Sample.carol] pagination)
    /\ TableOld.startItemIndex pagination = 3
    /\ TableOld.endItemIndex pagination = 3.
Proof.
  destruct (TableOld_render_caption Sample.closure)
    as (pagination & Hv & Hs & He & _); [done | done |].
  exists pagination. split; [exact Hv|]. split; [exact Hs | exact He].
Defined.


(** ** Searching *)

Lemma trimStart_blank (s : string) : blank s = true -> JS.trimStart s = EmptyString.
Proof.
  induction s as [|c s IH]; [done|]. cbn.
  destruct (JS.isWhiteSpace c); [exact IH | discriminate].
Qed.

Lemma trimStart_not_blank (s : string) :
  blank s = false -> blank (JS.trimStart s) = false.
Proof.
  induction s as [|c s IH]; [done|]. cbn.
  destruct (JS.isWhiteSpace c) eqn:E; [exact IH|]. intros _. cbn. by rewrite E.
Qed.

Lemma trimEnd_not_blank (s : string) :
  blank s = false -> JS.trimEnd s <> EmptyString.
Proof.
  induction s as [|c s IH]; [done|]. cbn.
  destruct (JS.isWhiteSpace c) eqn:E; cbn.
  - intros Hs. specialize (IH Hs). by destruct (JS.trimEnd s).
  - intros _. by destruct (JS.trimEnd s).
Qed.

(** The search term is empty exactly for a text of white space only. *)
Lemma searchTerm_blank (value : string) :
  JS.truthy (JS.toLowerCase (JS.trim value)) = negb (blank value).
Proof.
  unfold JS.trim. destruct (blank value) eqn:E; cbn [negb].
  - by rewrite trimStart_blank.
  - apply trimStart_not_blank, trimEnd_not_blank in E.
    by destruct (JS.trimEnd (JS.trimStart value)).
Qed.

(** X7. In the class, a search text of white space only (the empty text
    included) brings back all the records: the filtered records are the
    data, in their order, the page is 1, and the data and the sort column
    are as before. *)
Theorem input_blank (value : string) (s : DataTable.State) :
  blank value = true ->
  DataTable.filtered (DataTable.input value s) = DataTable.data s
  /\ DataTable.currentPage (DataTable.input value s) = 1
  /\ DataTable.data (DataTable.input value s) = DataTable.data s
  /\ DataTable.sortColumn (DataTable.input value s) = DataTable.sortColumn s.
Proof.
  intros Hb. unfold DataTable.input, DataTable.render.
  rewrite searchTerm_blank, Hb. cbn [negb].
  by destruct (negb _).
Qed.

Lemma input_blank_witness :
  DataTable.filtered (DataTable.input "  " Sample.instance)
  = [Sample.alice; Sample.bob; Sample.carol].
Proof. apply (input_blank "  " Sample.instance). reflexivity. Defined.

(** X8. In [table-old.js], a search text of white space only (TAB, LF,
    VT, FF, CR, SPACE, no-break space) makes [filtered] the array [data]
    itself, which [orderBy] then sorts in place: afterwards the data and
    the filtered records are one array, sorted when the comparison
    callback is consistent on the data; the page is 1 and the sort column
    is as before. A text with a term leaves the data as they are. *)
Theorem keyup_data `{!Runtime} (value : string) (o : TableOld.State) :
  (blank value = true ->
   (consistentOn (TableOld.compare (TableOld.sortColumn o)) (TableOld.data o) ->
    TableOld.filtered (TableOld.keyup value o)
    = JS.sort (TableOld.compare (TableOld.sortColumn o)) (TableOld.data o))
   /\ TableOld.data (TableOld.keyup value o)
      = TableOld.filtered (TableOld.keyup value o)
   /\ TableOld.aliased (TableOld.keyup value o) = true)
  /\ (blank value = false ->
      TableOld.data (TableOld.keyup value o) = TableOld.data o
      /\ TableOld.aliased (TableOld.keyup value o) = false)
  /\ TableOld.currentPage (TableOld.keyup value o) = 1
  /\ TableOld.sortColumn (TableOld.keyup value o) = TableOld.sortColumn o.
Proof.
  unfold TableOld.keyup, TableOld.filterByTerm.
  rewrite searchTerm_blank.
  destruct (TableOld.sortColumn o) as [k ord] eqn:Esc.
  destruct (blank value); cbn [negb];
    unfold TableOld.orderBy, TableOld.render, TableOld.sortFiltered;
    cbn; rewrite Esc; cbn; rewrite String.eqb_refl;
    (destruct (0 <? _); cbn; repeat split; intros; done || discriminate).
Qed.

Lemma append_assoc (a b c : string) :
  ((a ++ b) ++ c)%string = (a ++ b ++ c)%string.
Proof.
  induction a as [|x a IH]; [done|]. by rewrite !append_String, IH.
Qed.

Lemma contains_trans (s t u : string) :
  Spec.contains s t -> Spec.contains t u -> Spec.contains s u.
Proof.
  intros (pre & post & ->) (pre' & post' & ->).
  exists (pre ++ pre')%string, (post' ++ post)%string.
  by rewrite !append_assoc.
Qed.

Lemma filter_sublist_mono {A : Type} (f g : A -> bool) (l : list A) :
  (forall x, f x = true -> g x = true) ->
  List.filter f l `sublist_of` List.filter g l.
Proof.
  intros Hfg. induction l as [|x l IH]; cbn; [constructor|].
  destruct (f x) eqn:Ef.
  - rewrite (Hfg x Ef). by constructor.
  - destruct (g x); [by constructor | done].
Qed.

Lemma filter_sublist {A : Type} (f : A -> bool) (l : list A) :
  List.filter f l `sublist_of` l.
Proof.
  induction l as [|x l IH]; cbn; [constructor|].
  destruct (f x); by constructor.
Qed.

(** X9. In the class, a longer search never finds more: when the term of a
    search text contains the term of another, the records it finds are
    among those the other finds, in the same order. *)
Theorem input_narrows (value value' : string) (s : DataTable.State) :
  Spec.contains (JS.toLowerCase (JS.trim value'))
                (JS.toLowerCase (JS.trim value)) ->
  DataTable.filtered (DataTable.input value' s)
    `sublist_of` DataTable.filtered (DataTable.input value s).
Proof.
  intros Hc. unfold DataTable.input. rewrite !DataTable_render_filtered.
  destruct (JS.truthy (JS.toLowerCase (JS.trim value))) eqn:Et;
    destruct (JS.truthy (JS.toLowerCase (JS.trim value'))) eqn:Et'; cbn.
  - apply filter_sublist_mono. intros r.
    rewrite !entryMatches_spec. intros (c & Hin & Hi & Hm).
    exists c. split; [done|]. split; [done|]. by eapply contains_trans.
  - destruct (JS.toLowerCase (JS.trim value')); [|discriminate].
    destruct Hc as (pre & post & Hc).
    destruct pre; [|discriminate].
    destruct (JS.toLowerCase (JS.trim value)); [discriminate|].
    rewrite append_String in Hc. discriminate.
  - apply filter_sublist.
  - done.
Qed.

Lemma input_narrows_witness :
  DataTable.filtered (DataTable.input "bo" Sample.instance)
    `sublist_of` DataTable.filtered (DataTable.input "o" Sample.instance).
Proof.
  apply (input_narrows "o" "bo" Sample.instance).
  exists "b", EmptyString. reflexivity.
Defined.

(** X10. When every column has [ignoreFiltering], no record matches any
    term: in the class a search text with a term empties the table, which
    then shows the no-entries card and no pagination. *)
Theorem input_nothing_searchable (value : string) (s : DataTable.State) :
  (forall column, column ∈ DataTable.columns s -> ignoreFiltering column = true) ->
  blank value = false ->
  DataTable.filtered (DataTable.input value s) = []
  /\ DataTable.tableContainer (DataTable.view (DataTable.input value s))
     = DataTable.NoEntries
  /\ DataTable.paginationContainer (DataTable.view (DataTable.input value s))
     = None.
Proof.
  intros Hcols Hb.
  assert (Hnone : List.filter (DataTable.entryMatches (DataTable.columns s)
            (JS.toLowerCase (JS.trim value))) (DataTable.data s) = []).
  { induction (DataTable.data s) as [|r l IH]; [done|]. cbn [List.filter].
    destruct (DataTable.entryMatches _ _ r) eqn:Em; [|exact IH].
    apply entryMatches_spec in Em as (c & Hin & Hi & _).
    rewrite (Hcols c Hin) in Hi. discriminate. }
  unfold DataTable.input, DataTable.render.
  rewrite searchTerm_blank, Hb. cbn [negb]. cbn. rewrite Hnone. done.
Qed.

(** ** Sorting the records *)

Lemma Sorted_impl_Forall {A : Type} (R R' : A -> A -> Prop) (P : A -> Prop)
    (l : list A) :
  (forall a b, P a -> P b -> R a b -> R' a b) ->
  Forall P l -> Sorted R l -> Sorted R' l.
Proof.
  intros HR HP Hs. induction Hs as [|x l Hs IH Hx]; [constructor|].
  apply Forall_cons in HP as [Hpx HP]. constructor; [by apply IH|].
  destruct Hx as [|y l Hxy]; constructor.
  apply Forall_cons in HP as [Hpy _]. by apply HR.
Qed.

Section SortRecords.
Context `{!Runtime}.

(** X11. In [table.js], a click on the header of a sortable column shows
    all the records again, whatever the search had left: the filtered
    records are the data, which are the records of before in the order
    asked of the sort column that the click sets. *)
Theorem Table_click_all_records (column : Column) (s : DataTable.State) :
  ignoreFiltering column = false ->
  let s' := Table.click column s in
  DataTable.sortColumn s' = DataTable.clicked column (DataTable.sortColumn s)
  /\ DataTable.filtered s' = DataTable.data s'
  /\ DataTable.data s' ≡ₚ DataTable.data s
  /\ Sorted (fun a b =>
       DataTable.compare (DataTable.sc_key (DataTable.sortColumn s'))
                         (DataTable.sc_order (DataTable.sortColumn s')) a b <= 0)
            (DataTable.data s').
Proof.
  intros Hc s'. unfold s', Table.click. rewrite Hc.
  unfold DataTable.render, Table.sortData.
  destruct (negb _); cbn -[JS.sort];
    (split; [done|]; split; [done|]; split;
     [symmetry; apply sort_Permutation
     | apply sort_Sorted, DataTable_compare_anti]).
Qed.





End SortRecords.

Lemma Table_click_all_records_witness :
  DataTable.filtered (Table.click Sample.ageColumn Sample.instance)
  = DataTable.data (Table.click Sample.ageColumn Sample.instance).
Proof.
  apply (Table_click_all_records Sample.ageColumn Sample.instance). reflexivity.
Defined.

Section SortTwice.
Context {A : Type} (cmp1 cmp2 : A -> A -> Z).
Hypothesis cmp1_consistent : Spec.consistent cmp1.
Hypothesis cmp2_consistent : Spec.consistent cmp2.
Hypothesis same_ties : forall x y, cmp1 x y = 0 <-> cmp2 x y = 0.



End SortTwice.







Lemma input_nothing_searchable_witness :
  DataTable.filtered (DataTable.input "a" Sample.unsearchable) = [].
Proof.
  apply (input_nothing_searchable "a" Sample.unsearchable); [|reflexivity].
  intros column Hin. apply list_elem_of_singleton in Hin as ->. reflexivity.
Defined.

(** ** Replacing the data of [table-old.js] *)

Section Update.
Context `{!Runtime}.



End Update.


Lemma hasUpper_append (a b : string) :
  hasUpper (a ++ b)%string = hasUpper a || hasUpper b.
Proof.
  induction a as [|c a IH]; [done|].
  rewrite append_String. cbn. by rewrite IH, orb_assoc.
Qed.

Lemma toLowerCaseChar_lower (c : ascii) : JS.isUpper (JS.toLowerCaseChar c) = false.
Proof. destruct c as [[] [] [] [] [] [] [] []]; reflexivity. Qed.

Lemma hasUpper_toLowerCase (s : string) : hasUpper (JS.toLowerCase s) = false.
Proof.
  induction s as [|c s IH]; [done|]. cbn.
  by rewrite toLowerCaseChar_lower, IH.
Qed.

(** No case-folded value contains a term with an upper-case letter. *)
Lemma includes_upper (s t : string) :
  hasUpper t = true -> JS.includes (JS.toLowerCase s) t = false.
Proof.
  intros Ht. destruct (JS.includes _ t) eqn:Ei; [|done].
  apply includes_spec in Ei as (pre & post & Heq).
  pose proof (hasUpper_toLowerCase s) as Hs.
  rewrite Heq, !hasUpper_append, Ht in Hs.
  by destruct (hasUpper pre).
Qed.

Lemma entryMatches_upper (columns : list Column) (searchTerm : string)
    (entry : JS.record) :
  hasUpper searchTerm = true ->
  TableOld.entryMatches columns searchTerm entry = false.
Proof.
  intros Ht. induction columns as [|c columns IH]; [done|].
  cbn [TableOld.entryMatches]. rewrite IH.
  rewrite (includes_upper _ searchTerm Ht).
  destruct (negb _); [|done]. by destruct (JS.truthy _).
Qed.

Section UpdateSearch.
Context `{!Runtime}.

(** X15. [update] filters the new records with the text of the search box
    as it is typed, neither trimmed nor case-folded: when the search box
    is shown and its text has an upper-case letter, no record is kept,
    whatever the records are, and the no-records card is drawn. *)
Theorem update_upper_case (searchValue : string) (updated : list JS.record)
    (o : TableOld.State) :
  TableOld.showSearch o = true ->
  hasUpper searchValue = true ->
  let o' := TableOld.update searchValue updated o in
  TableOld.data o' = updated
  /\ TableOld.filtered o' = []
  /\ TableOld.view o'
     = TableOld.setTableContainer (TableOld.view o) TableOld.NoRecordsCard.
Proof.
  intros Hs Hu o'.
  assert (Ht : JS.truthy searchValue = true) by (by destruct searchValue).
  assert (Hnone : List.filter
            (TableOld.entryMatches (TableOld.columns o) searchValue) updated = []).
  { induction updated as [|r l IH]; [done|]. cbn [List.filter].
    by rewrite entryMatches_upper. }
  unfold o', TableOld.update, TableOld.init.
  cbn [TableOld.showSearch TableOld.setData TableOld.setFiltered].
  rewrite Hs, Ht. cbn [andb].
  unfold TableOld.filterByTerm. rewrite Ht.
  unfold TableOld.orderBy, TableOld.render, TableOld.sortFiltered.
  cbn. rewrite Hnone. cbn. done.
Qed.

End UpdateSearch.

Lemma update_upper_case_witness :
  TableOld.filtered
    (TableOld.update "Bob" [Sample.alice; Sample.bob] Sample.closure) = [].
Proof.
  destruct (update_upper_case "Bob" [Sample.alice; Sample.bob] Sample.closure)
    as (_ & Hfiltered & _); [reflexivity | reflexivity | exact Hfiltered].
Defined.

(** ** Drawing and page changes *)

(** X16. Drawing depends on the fields of the widget alone: to draw twice
    is to draw once, and of two page changes in a row only the second
    counts, in the class and in [table-old.js]. *)
Theorem render_again :
  (forall s : DataTable.State,
     DataTable.render (DataTable.render s) = DataTable.render s
     /\ forall p q, DataTable.changePage p (DataTable.changePage q s)
                    = DataTable.changePage p s)
  /\ (forall o : TableOld.State,
        TableOld.render (TableOld.render o) = TableOld.render o
        /\ forall p q, TableOld.clickPage p (TableOld.clickPage q o)
                       = TableOld.clickPage p o).
Proof.
  split.
  - intros s. destruct s as [e d f pg cols cp ps sc ss [sr tc pc]].
    split; [|intros p q]; unfold DataTable.changePage, DataTable.render;
      cbn -[JS.slice pageCount range];
      destruct (negb (Z.of_nat (length f) =? 0)) eqn:E;
      cbn -[JS.slice pageCount range]; rewrite E; reflexivity.
  - intros o. destruct o as [c d cols ps ss sc f al cp v].
    split; [|intros p q]; unfold TableOld.clickPage, TableOld.render;
      cbn -[paginate pageCount paginationItems];
      destruct (0 <? Z.of_nat (length f)) eqn:E;
      cbn -[paginate pageCount paginationItems]; rewrite E;
      destruct v; reflexivity.
Qed.

(** ** Construction *)

Section Construction.
Context `{!Runtime}.

Lemma bind_state (defaultPageSize : Z) (o : DataTable.Options)
    (s : DataTable.State) :
  DataTable.bind defaultPageSize o = inr s ->
  DataTable.data s = default [] (DataTable.o_data o)
  /\ DataTable.columns s = default [] (DataTable.o_columns o)
  /\ DataTable.pageSize s = default defaultPageSize (DataTable.o_pageSize o)
  /\ DataTable.currentPage s = 1
  /\ DataTable.showSearch s
     = default (negb (Z.of_nat (length (default [] (DataTable.o_data o))) =? 0))
               (DataTable.o_showSearch o)
  /\ (forall c, DataTable.o_sortColumn o = Some c -> DataTable.sortColumn s = c)
  /\ (DataTable.o_sortColumn o = None ->
      exists column, head (default [] (DataTable.o_columns o)) = Some column
        /\ DataTable.sortColumn s
           = {| DataTable.sc_key := key column; DataTable.sc_order := "asc" |}).
Proof.
  unfold DataTable.bind.
  destruct (DataTable.o_sortColumn o) as [c|],
    (default [] (DataTable.o_columns o)) as [|column columns],
    (DataTable.o_element o) as [element|]; intros [= <-]; cbn;
    repeat split; try done; try (by intros ? [= ->]); eauto.
Qed.

(** X17. A [DataTable] of [table.js] that is constructed holds the given
    records sorted by its sort column, which is the given one or else the
    first column ascending; all of them are filtered in, the page is 1,
    three records make a page unless a page size is given, the search box
    is there by default when there are records, and the first page is
    drawn, or the no-entries card when there is no record. *)
Theorem Table_constructor_state (o : DataTable.Options) (s : DataTable.State) :
  Table.constructor o = inr s ->
  DataTable.data s ≡ₚ default [] (DataTable.o_data o)
  /\ Sorted (fun a b =>
       DataTable.compare (DataTable.sc_key (DataTable.sortColumn s))
                         (DataTable.sc_order (DataTable.sortColumn s)) a b <= 0)
            (DataTable.data s)
  /\ DataTable.filtered s = DataTable.data s
  /\ DataTable.currentPage s = 1
  /\ DataTable.pageSize s = default 3 (DataTable.o_pageSize o)
  /\ DataTable.sortColumn s
     = default {| DataTable.sc_key :=
                    from_option key EmptyString
                      (head (default [] (DataTable.o_columns o)));
                  DataTable.sc_order := "asc" |}
               (DataTable.o_sortColumn o)
  /\ DataTable.search (DataTable.view s)
     = default (negb (Z.of_nat (length (default [] (DataTable.o_data o))) =? 0))
               (DataTable.o_showSearch o)
  /\ DataTable.tableContainer (DataTable.view s)
     = if Z.of_nat (length (default [] (DataTable.o_data o))) =? 0
       then DataTable.NoEntries
       else DataTable.Table
              (paginate (DataTable.data s) 1 (DataTable.pageSize s)).
Proof.
  unfold Table.constructor.
  destruct (DataTable.bind 3 o) as [e|s0] eqn:Eb; [discriminate|].
  intros [= <-].
  destruct (bind_state 3 o s0 Eb) as (Hd & Hc & Hp & Hcp & Hss & Hsc1 & Hsc2).
  assert (Hsc : DataTable.sortColumn s0
     = default {| DataTable.sc_key :=
                    from_option key EmptyString
                      (head (default [] (DataTable.o_columns o)));
                  DataTable.sc_order := "asc" |}
               (DataTable.o_sortColumn o)).
  { destruct (DataTable.o_sortColumn o) as [c|]; [by apply Hsc1|].
    destruct (Hsc2 eq_refl) as (column & -> & ->). done. }
  set (sorted := JS.sort (DataTable.compare
                            (DataTable.sc_key (DataTable.sortColumn s0))
                            (DataTable.sc_order (DataTable.sortColumn s0)))
                         (DataTable.data s0)).
  assert (Hlen : length sorted = length (DataTable.data s0)).
  { unfold sorted. apply Permutation_length. symmetry. apply sort_Permutation. }
  rewrite <- Hss, <- Hsc, <- Hp, <- Hd. clear Hss Hsc Hp Hd Hsc1 Hsc2.
  unfold DataTable.render, DataTable.renderPage, Table.initData, Table.sortData.
  cbn -[JS.sort JS.slice pageCount range]. fold sorted. rewrite Hlen.
  destruct (Z.of_nat (length (DataTable.data s0)) =? 0);
    cbn -[JS.sort JS.slice pageCount range]; fold sorted;
    (split; [symmetry; apply sort_Permutation|];
     split; [apply sort_Sorted, DataTable_compare_anti|];
     rewrite ?Hcp; repeat split; reflexivity).
Qed.

End Construction.

Lemma Table_constructor_state_witness :
  exists s, Table.constructor Sample.options = inr s
            /\ DataTable.filtered s = DataTable.data s.
Proof.
  eexists. split; [reflexivity|].
  eapply (Table_constructor_state Sample.options). reflexivity.
Defined.

(** X18. A [DataTable] of the revision that is constructed holds the same
    state as one of [table.js], with twenty records to a page unless a
    page size is given: the given records sorted by the sort column, all
    filtered in, page 1, and the first page or the no-entries card. *)
Theorem Revision_constructor_state `{!Runtime} (o : DataTable.Options)
    (s : DataTable.State) :
  Revision.constructor o = inr s ->
  DataTable.data s ≡ₚ default [] (DataTable.o_data o)
  /\ Sorted (fun a b =>
       DataTable.compare (DataTable.sc_key (DataTable.sortColumn s))
                         (DataTable.sc_order (DataTable.sortColumn s)) a b <= 0)
            (DataTable.data s)
  /\ DataTable.filtered s = DataTable.data s
  /\ DataTable.currentPage s = 1
  /\ DataTable.pageSize s = default 20 (DataTable.o_pageSize o)
  /\ DataTable.sortColumn s
     = default {| DataTable.sc_key :=
                    from_option key EmptyString
                      (head (default [] (DataTable.o_columns o)));
                  DataTable.sc_order := "asc" |}
               (DataTable.o_sortColumn o)
  /\ DataTable.search (DataTable.view s)
     = default (negb (Z.of_nat (length (default [] (DataTable.o_data o))) =? 0))
               (DataTable.o_showSearch o)
  /\ DataTable.tableContainer (DataTable.view s)
     = if Z.of_nat (length (default [] (DataTable.o_data o))) =? 0
       then DataTable.NoEntries
       else DataTable.Table
              (paginate (DataTable.data s) 1 (DataTable.pageSize s)).
Proof.
  unfold Revision.constructor.
  destruct (DataTable.bind 20 o) as [e|s0] eqn:Eb; [discriminate|].
  intros [= <-].
  destruct (bind_state 20 o s0 Eb) as (Hd & Hc & Hp & Hcp & Hss & Hsc1 & Hsc2).
  assert (Hsc : DataTable.sortColumn s0
     = default {| DataTable.sc_key :=
                    from_option key EmptyString
                      (head (default [] (DataTable.o_columns o)));
                  DataTable.sc_order := "asc" |}
               (DataTable.o_sortColumn o)).
  { destruct (DataTable.o_sortColumn o) as [c|]; [by apply Hsc1|].
    destruct (Hsc2 eq_refl) as (column & -> & ->). done. }
  set (sorted := JS.sort (DataTable.compare
                            (DataTable.sc_key (DataTable.sortColumn s0))
                            (DataTable.sc_order (DataTable.sortColumn s0)))
                         (DataTable.data s0)).
  assert (Hlen : length sorted = length (DataTable.data s0)).
  { unfold sorted. apply Permutation_length. symmetry. apply sort_Permutation. }
  rewrite <- Hss, <- Hsc, <- Hp, <- Hd. clear Hss Hsc Hp Hd Hsc1 Hsc2.
  unfold DataTable.render, DataTable.renderPage, Revision.initData,
    Revision.sortData.
  cbn -[JS.sort JS.slice pageCount range]. fold sorted. rewrite Hlen.
  destruct (Z.of_nat (length (DataTable.data s0)) =? 0);
    cbn -[JS.sort JS.slice pageCount range]; fold sorted;
    (split; [symmetry; apply sort_Permutation|];
     split; [apply sort_Sorted, DataTable_compare_anti|];
     rewrite ?Hcp; repeat split; reflexivity).
Qed.

Lemma Revision_constructor_state_witness :
  exists s, Revision.constructor Sample.options = inr s
            /\ DataTable.pageSize s = 1.
Proof.
  eexists. split; [reflexivity|].
  eapply (Revision_constructor_state Sample.options). reflexivity.
Defined.



(** ** Edges of the window and the number of pages *)

(** X20. With more than one page, a current page more than two beyond the
    last page leaves a window of page 1 and an ellipse: no other page can
    be reached from it. A current page below [-1] leaves, with more than
    two pages, the ellipse and the last page. *)
Theorem paginationItems_outside (currentPage pages : Z) :
  1 < pages ->
  (pages + 2 < currentPage ->
   paginationItems currentPage pages = [Page 1; Ellipse])
  /\ (currentPage < -1 -> 2 < pages ->
      paginationItems currentPage pages = [Ellipse; Page pages]).
Proof.
  intros Hp. unfold paginationItems, paginationRange.
  destruct (Z.ltb_spec 1 pages); [|lia]. split.
  - intros Hc.
    replace (Z.max 1 (currentPage - 2)) with (currentPage - 2) by lia.
    replace (Z.min pages (currentPage + 2)) with pages by lia.
    destruct (Z.ltb_spec 2 (currentPage - 2)); [|lia].
    destruct (Z.ltb_spec pages (pages - 1)); [lia|].
    destruct (Z.ltb_spec pages pages); [lia|].
    unfold range. by replace (Z.to_nat _) with 0%nat by lia.
  - intros Hc Hp2.
    replace (Z.max 1 (currentPage - 2)) with 1 by lia.
    replace (Z.min pages (currentPage + 2)) with (currentPage + 2) by lia.
    cbn [Z.ltb Z.compare Pos.compare Pos.compare_cont].
    destruct (Z.ltb_spec (currentPage + 2) (pages - 1)); [|lia].
    unfold range. by replace (Z.to_nat _) with 0%nat by lia.
Qed.

Lemma paginationItems_outside_witness :
  1 < 3 /\ paginationItems 10 3 = [Page 1; Ellipse].
Proof.
  split; [lia|]. apply (paginationItems_outside 10 3); lia.
Defined.

(** X21. With a positive page size the number of pages is the least number
    of pages that hold all the records: none for no record, and for [n]
    records the least [t] with [n <= t * pageSize]. *)
Theorem pageCount_least {A : Type} (filtered : list A) (pageSize : Z) :
  0 < pageSize ->
  Z.of_nat (length filtered) <= pageCount filtered pageSize * pageSize
  /\ (forall t, Z.of_nat (length filtered) <= t * pageSize ->
                pageCount filtered pageSize <= t)
  /\ (pageCount filtered pageSize = 0 <-> filtered = []).
Proof.
  intros H.
  destruct (pageCount_bounds filtered pageSize H) as [Hb|[Hl Hb]].
  - split; [lia|]. split; [intros t Ht; nia|].
    split; [intros Hz; rewrite Hz in Hb; apply nil_length_inv; lia|].
    intros ->. cbn [length] in Hb. nia.
  - rewrite Hb. apply nil_length_inv in Hl as ->. cbn.
    split; [lia|]. split; [intros t Ht; nia | done].
Qed.

Lemma pageCount_least_witness :
  0 < 2 /\ Z.of_nat (length [10; 20; 30]) <= pageCount [10; 20; 30] 2 * 2.
Proof. split; [lia|]. apply (pageCount_least [10; 20; 30] 2). lia. Defined.

(** ** Sorting in [table-old.js] *)

Section OrderBy.
Context `{!Runtime}.








End OrderBy.



(** ** Sorting strings *)

Lemma compare_not_Gt_trans (a b c : string) :
  String.compare a b <> Gt -> String.compare b c <> Gt ->
  String.compare a c <> Gt.
Proof.
  intros Hab Hbc Hac.
  assert (Hlt : forall x y, String.compare x y = Gt -> OrderedTypeEx.String_as_OT.lt y x).
  { intros x y Hxy. apply OrderedTypeEx.String_as_OT.cmp_lt. unfold OrderedTypeEx.String_as_OT.cmp.
    rewrite String.compare_antisym, Hxy. done. }
  assert (Hle : forall x y, String.compare x y <> Gt ->
                            x = y \/ OrderedTypeEx.String_as_OT.lt x y).
  { intros x y Hxy. destruct (String.compare x y) eqn:E; [| |done].
    - left. by apply String.compare_eq_iff.
    - right. by apply OrderedTypeEx.String_as_OT.cmp_lt. }
  apply Hlt in Hac.
  destruct (Hle a b Hab) as [->|Hab'], (Hle b c Hbc) as [->|Hbc'].
  - by apply OrderedTypeEx.String_as_OT.lt_not_eq in Hac.
  - eapply OrderedTypeEx.String_as_OT.lt_not_eq; [|reflexivity].
    eapply OrderedTypeEx.String_as_OT.lt_trans; eassumption.
  - eapply OrderedTypeEx.String_as_OT.lt_not_eq; [|reflexivity].
    eapply OrderedTypeEx.String_as_OT.lt_trans; eassumption.
  - eapply OrderedTypeEx.String_as_OT.lt_not_eq; [|reflexivity].
    eapply OrderedTypeEx.String_as_OT.lt_trans; [exact Hac|].
    eapply OrderedTypeEx.String_as_OT.lt_trans; eassumption.
Qed.

(** X24. When every record has a string under the sort key, [sortData]
    leaves the records in the order of these strings, character code by
    character code (upper case before lower case): ascending for the
    order ["asc"] and descending for every other order, in [table.js]
    (the data) and in the revision (the filtered records). *)
Theorem sortData_strings `{!Runtime} (s : DataTable.State) :
  let key := DataTable.sc_key (DataTable.sortColumn s) in
  let order := DataTable.sc_order (DataTable.sortColumn s) in
  (Forall (textual key) (DataTable.data s) ->
   DataTable.data (Table.sortData s) ≡ₚ DataTable.data s
   /\ StronglySorted (alphabetical key order)
                     (DataTable.data (Table.sortData s)))
  /\ (Forall (textual key) (DataTable.filtered s) ->
      DataTable.filtered (Revision.sortData s) ≡ₚ DataTable.filtered s
      /\ StronglySorted (alphabetical key order)
                        (DataTable.filtered (Revision.sortData s))).
Proof.
  intros key order.
  assert (Hsorted : forall l, Forall (textual key) l ->
    StronglySorted (alphabetical key order)
                   (JS.sort (DataTable.compare key order) l)).
  { intros l Hl. apply Sorted_StronglySorted.
    - intros a b c. unfold alphabetical.
      destruct (String.eqb order "asc"); intros H1 H2;
        eapply compare_not_Gt_trans; eassumption.
    - apply (Sorted_impl_Forall
               (fun a b => DataTable.compare key order a b <= 0) _ (textual key)).
      + intros a b [x Hx] [y Hy].
        unfold DataTable.compare, alphabetical, stringOf, JS.lt.
        rewrite Hx, Hy. cbn.
        rewrite (String.compare_antisym y x).
        destruct (String.eqb order "asc"), (String.compare x y);
          cbn; intros; (done || lia).
      + by rewrite <- sort_Permutation.
      + apply sort_Sorted, DataTable_compare_anti. }
  split; intros Hl;
    (split; [symmetry; apply sort_Permutation | by apply Hsorted]).
Qed.

(** ** Sorting twice *)







Section MergeSort.
Context {A : Type} (cmp : A -> A -> Z).
Hypothesis cmp_consistent : Spec.consistent cmp.

Lemma consistent_sym (x y : A) : cmp x y = 0 -> cmp y x = 0.
Proof.
  destruct cmp_consistent as [Hs _]. intros Hxy.
  destruct (Z.lt_trichotomy (cmp y x) 0) as [Hlt|[?|Hgt]]; [|done|].
  - apply Hs in Hlt. lia.
  - apply Hs in Hgt. lia.
Qed.




End MergeSort.




Lemma consistentOn_Permutation {A : Type} (cmp : A -> A -> Z) (l l' : list A) :
  l ≡ₚ l' -> consistentOn cmp l -> consistentOn cmp l'.
Proof.
  intros Hp (cmp' & Hc & Hext). exists cmp'. split; [done|].
  intros a b Ha Hb. rewrite <- Hp in Ha, Hb. by apply Hext.
Qed.

Section Comparable.
Context `{!Runtime}.





End Comparable.



